(** * Ecwid order sync: a shallow embedding of [ecwid_sync.py]

    The script reads the order-number column of a worksheet, decides between
    a full and an incremental fetch, pages through the order API, flattens
    the fetched orders into rows, cleans and sorts them, appends them to the
    worksheet and writes a log row.

    Conventions of the embedding:
    - a Python [str] is the [string] of its UTF-8 bytes; [str.isdigit] and
      [int] read it as Unicode text, with the digits of CPython 3.11
      (Unicode 14.0); [str.lower] is written for the ASCII letters only;
    - a Python [int] is a [Z];
    - a JSON object is a record whose fields say whether the key is absent,
      [null] or present ([field]); [dict.get] is [get];
    - a call that may raise returns a [py] value; a loop that may run
      forever takes a bound on its number of iterations and returns [None]
      when the bound is used up. *)

From Stdlib Require Import List String Ascii ZArith Lia Bool Arith.
From Stdlib Require Import Permutation.
From Stdlib Require Import DecimalString DecimalPos.
Import ListNotations.

Open Scope string_scope.
Open Scope list_scope.

(** ** Python strings *)

Module PyStr.

Definition is_ascii_digit (c : ascii) : bool :=
  let n := nat_of_ascii c in (48 <=? n)%nat && (n <=? 57)%nat.

Fixpoint all_chars (p : ascii -> bool) (s : string) : bool :=
  match s with
  | EmptyString => true
  | String c s' => p c && all_chars p s'
  end.

(** The payload of a UTF-8 continuation byte. *)
Definition continuation (b : ascii) : option N :=
  let n := N_of_ascii b in
  if ((128 <=? n) && (n <? 192))%N then Some (n - 128)%N else None.

(** The code points of a text, read from its UTF-8 bytes; [None] for bytes
    that are the UTF-8 of no text. *)
Fixpoint code_points (s : string) : option (list N) :=
  match s with
  | EmptyString => Some []
  | String b0 rest =>
      let n0 := N_of_ascii b0 in
      if (n0 <? 128)%N then option_map (cons n0) (code_points rest)
      else if ((194 <=? n0) && (n0 <? 224))%N then
        match rest with
        | String b1 rest1 =>
            match continuation b1 with
            | Some c1 =>
                option_map (cons ((n0 - 192) * 64 + c1)%N) (code_points rest1)
            | None => None
            end
        | EmptyString => None
        end
      else if ((224 <=? n0) && (n0 <? 240))%N then
        match rest with
        | String b1 (String b2 rest2) =>
            match continuation b1, continuation b2 with
            | Some c1, Some c2 =>
                let cp := ((n0 - 224) * 4096 + c1 * 64 + c2)%N in
                if ((2048 <=? cp) && negb ((55296 <=? cp) && (cp <=? 57343)))%N
                then option_map (cons cp) (code_points rest2)
                else None
            | _, _ => None
            end
        | _ => None
        end
      else if ((240 <=? n0) && (n0 <? 245))%N then
        match rest with
        | String b1 (String b2 (String b3 rest3)) =>
            match continuation b1, continuation b2, continuation b3 with
            | Some c1, Some c2, Some c3 =>
                let cp :=
                  ((n0 - 240) * 262144 + c1 * 4096 + c2 * 64 + c3)%N in
                if ((65536 <=? cp) && (cp <=? 1114111))%N
                then option_map (cons cp) (code_points rest3)
                else None
            | _, _, _ => None
            end
        | _ => None
        end
      else None
  end.

(** The code points that are decimal digits ([str.isdecimal]), in runs that
    start at a digit zero and go up by one. *)
Definition decimal_ranges : list (N * N) :=
  (
    [(48, 57); (1632, 1641); (1776, 1785); (1984, 1993); (2406, 2415);
     (2534, 2543); (2662, 2671); (2790, 2799); (2918, 2927); (3046, 3055);
     (3174, 3183); (3302, 3311); (3430, 3439); (3558, 3567); (3664, 3673);
     (3792, 3801); (3872, 3881); (4160, 4169); (4240, 4249); (6112, 6121);
     (6160, 6169); (6470, 6479); (6608, 6617); (6784, 6793); (6800, 6809);
     (6992, 7001); (7088, 7097); (7232, 7241); (7248, 7257); (42528, 42537);
     (43216, 43225); (43264, 43273); (43472, 43481); (43504, 43513);
     (43600, 43609); (44016, 44025); (65296, 65305); (66720, 66729);
     (68912, 68921); (69734, 69743); (69872, 69881); (69942, 69951);
     (70096, 70105); (70384, 70393); (70736, 70745); (70864, 70873);
     (71248, 71257); (71360, 71369); (71472, 71481); (71904, 71913);
     (72016, 72025); (72784, 72793); (73040, 73049); (73120, 73129);
     (92768, 92777); (92864, 92873); (93008, 93017); (120782, 120831);
     (123200, 123209); (123632, 123641); (125264, 125273); (130032, 130041) ]
  )%N.

(** The code points that are digits without being decimal digits:
    superscripts, circled digits and the like. *)
Definition other_digit_ranges : list (N * N) :=
  (
    [(178, 179); (185, 185); (4969, 4977); (6618, 6618); (8304, 8304);
     (8308, 8313); (8320, 8329); (9312, 9320); (9332, 9340); (9352, 9360);
     (9450, 9450); (9461, 9469); (9471, 9471); (10102, 10110);
     (10112, 10120); (10122, 10130); (68160, 68163); (69216, 69224);
     (69714, 69722); (127232, 127242) ]
  )%N.

Definition in_range (c : N) (r : N * N) : bool :=
  ((fst r <=? c) && (c <=? snd r))%N.

(** The value of a decimal digit. *)
Definition decimal_value (c : N) : option N :=
  match find (in_range c) decimal_ranges with
  | Some r => Some ((c - fst r) mod 10)%N
  | None => None
  end.

Definition is_digit (c : N) : bool :=
  match decimal_value c with
  | Some _ => true
  | None => existsb (in_range c) other_digit_ranges
  end.

(** [s.isdigit()]: at least one character, and every character a digit. *)
Definition isdigit (s : string) : bool :=
  match code_points s with
  | Some (c :: rest) => forallb is_digit (c :: rest)
  | _ => false
  end.

Definition lower_char (c : ascii) : ascii :=
  let n := nat_of_ascii c in
  if (65 <=? n)%nat && (n <=? 90)%nat then ascii_of_nat (n + 32) else c.

(** [s.lower()], on the ASCII letters: the bytes of other characters are
    left as they are, also where Python has a small letter for them. *)
Fixpoint lower (s : string) : string :=
  match s with
  | EmptyString => EmptyString
  | String c s' => String (lower_char c) (lower s')
  end.

(** [x in s] for two strings: [x] occurs in [s] as a substring. *)
Fixpoint contains (x s : string) : bool :=
  String.prefix x s ||
  match s with
  | EmptyString => false
  | String _ s' => contains x s'
  end.

(** [s.replace(" ", "_")] *)
Fixpoint replace_space (s : string) : string :=
  match s with
  | EmptyString => EmptyString
  | String c s' =>
      String (if Ascii.eqb c " "%char then "_"%char else c) (replace_space s')
  end.

(** The decimal digits of a text written with the digits 0 to 9; [None] when
    a character is not a decimal digit. *)
Fixpoint ascii_digits (cps : list N) : option string :=
  match cps with
  | [] => Some EmptyString
  | c :: rest =>
      match decimal_value c, ascii_digits rest with
      | Some v, Some t => Some (String (ascii_of_N (48 + v)) t)
      | _, _ => None
      end
  end.

(** The longest text [int] converts (the default of
    [sys.get_int_max_str_digits]). *)
Definition int_max_str_digits : nat := 4300.

(** [int(s)] for a string that passes [isdigit], the only strings the script
    converts; [None] where Python raises [ValueError]: a digit that is not a
    decimal digit, or more digits than the limit. *)
Definition int (s : string) : option Z :=
  match code_points s with
  | Some (c :: rest) =>
      if (List.length (c :: rest) <=? int_max_str_digits)%nat then
        match ascii_digits (c :: rest) with
        | Some t =>
            option_map (fun d => Z.of_N (N.of_uint d))
              (NilEmpty.uint_of_string t)
        | None => None
        end
      else None
  | _ => None
  end.

(** [str(n)]: the decimal text of an integer. *)
Definition str (n : Z) : string := NilEmpty.string_of_int (Z.to_int n).

End PyStr.

(** ** Exceptions and JSON fields *)

Inductive exn : Set :=
| ValueError
| OverflowError
| RequestException   (* transport failure, HTTP status, body that is not JSON *)
| APIError.          (* the worksheet client *)

Inductive py (A : Type) : Type :=
| Ret (a : A)
| Raise (e : exn).
Arguments Ret {A} a.
Arguments Raise {A} e.

Definition bind {A B : Type} (m : py A) (k : A -> py B) : py B :=
  match m with
  | Ret a => k a
  | Raise e => Raise e
  end.

Notation "x <- m ;; k" := (bind m (fun x => k))
  (at level 61, m at next level, right associativity).

(** A key of a JSON object: missing, [null], or holding a value. *)
Inductive field (A : Type) : Type :=
| Absent
| Null
| Val (a : A).
Arguments Absent {A}.
Arguments Null {A}.
Arguments Val {A} a.

(** [d.get(k)] *)
Definition get {A : Type} (f : field A) : option A :=
  match f with
  | Val a => Some a
  | _ => None
  end.

(** [d.get(k, default)] for a key that is a value whenever it is present. *)
Definition get_default {A : Type} (f : option A) (default : A) : A :=
  match f with
  | Some a => a
  | None => default
  end.

(** ** Data model *)

Record selected_option : Type := {
  opt_name : option string;
  opt_value : field string
}.

Record line_item : Type := {
  item_name : field string;
  selectedOptions : option (list selected_option)
}.

Record order : Type := {
  orderNumber : field Z;
  createDate : field string;
  items : field (list line_item)
}.

Record flat_row : Type := {
  create_date : option string;
  order_number : option Z;
  product_name : option string;
  category : option string;
  size : option string;
  color : option string
}.

(** ** Date normalizer *)

Definition ECWID_DATE_FORMATS : list string :=
  [ "%Y-%m-%d %H:%M:%S %z";
    "%Y-%m-%d %H:%M:%S";
    "%Y-%m-%d" ].

(** The [datetime] library as the script uses it.  [strptime] returns [None]
    where Python raises [ValueError]. *)
Class DateLib : Type := {
  datetime : Type;
  strptime : string -> string -> option datetime;
  tzinfo_is_none : datetime -> bool;
  replace_tzinfo_utc : datetime -> datetime;
  astimezone_lagos : datetime -> py datetime;
  strftime : datetime -> string -> string
}.

Section DateNormalizer.
Context `{DateLib}.

(** Lines 45-46: a parsed value without a zone is taken as UTC. *)
Definition as_utc (dt_obj : datetime) : datetime :=
  if tzinfo_is_none dt_obj then replace_tzinfo_utc dt_obj else dt_obj.

(** The body of the [for fmt in ECWID_DATE_FORMATS] loop with its
    [try ... except ValueError: continue]. *)
Fixpoint try_formats (date_str : string) (fmts : list string)
  : py (option datetime) :=
  match fmts with
  | [] => Ret None
  | fmt :: rest =>
      match strptime date_str fmt with
      | None => try_formats date_str rest
      | Some dt_obj =>
          let dt_obj := as_utc dt_obj in
          match astimezone_lagos dt_obj with
          | Ret dt => Ret (Some dt)
          | Raise ValueError => try_formats date_str rest
          | Raise e => Raise e
          end
      end
  end.

Definition parse_and_standardize_date (date_str : option string)
  : py (option datetime) :=
  match date_str with
  | None => Ret None
  | Some EmptyString => Ret None
  | Some s => try_formats s ECWID_DATE_FORMATS
  end.

(** Lines 177-179: the [create_date] of an order's rows. *)
Definition formatted_create_date (raw_create_date : option string)
  : py (option string) :=
  parsed_create_date <- parse_and_standardize_date raw_create_date ;;
  Ret (match parsed_create_date with
       | Some dt => Some (strftime dt "%d-%m-%Y %H:%M:%S")
       | None => raw_create_date
       end).

End DateNormalizer.

(** ** Option normalizer *)

Definition any_in (keywords : list string) (name : string) : bool :=
  existsb (fun x => PyStr.contains x name) keywords.

Definition normalize_option (name : string) : string :=
  let name := PyStr.lower name in
  if any_in ["color"; "colour"; "coloue"; "colours"; "cours"] name then "color"
  else if any_in ["size"; "sizing"; "sizs"] name then "size"
  else if any_in ["category"; "caregory"; "categories"; "catgory"] name
       then "category"
  else if any_in ["designer"] name then "designer_category"
  else if any_in ["thickness"] name then "thickness"
  else PyStr.replace_space name.

(** ** Incremental fetcher *)

Definition INITIAL_FETCH_DATE_STR : string := "2025-03-17 00:00:00 +0000".

(** The query parameters of one request. *)
Record params : Type := {
  offset : nat;
  limit : nat;
  createdFrom : option string;
  sortBy : option string;
  sortOrder : option string
}.

(** One request: [requests.get], [raise_for_status], [response.json()] and
    [page.get("items", [])] together.  The result is the page's orders, or
    the exception raised on the way. *)
Definition source : Type := params -> py (list order).

Definition full_params (offset limit : nat) (created_from_param : string)
  : params :=
  {| offset := offset; limit := limit;
     createdFrom := Some created_from_param;
     sortBy := None; sortOrder := None |}.

Definition incremental_params (offset limit : nat) : params :=
  {| offset := offset; limit := limit;
     createdFrom := None;
     sortBy := Some "orderNumber"; sortOrder := Some "asc" |}.

(** The variables a fetch loop updates. *)
Record fetch_state : Type := {
  st_offset : nat;
  all_orders : list order
}.

Definition page_limit : nat := 100.

(** Lines 115-131.  [None]: the loop is still running after [fuel]
    requests. *)
Fixpoint full_fetch_loop (fuel : nat) (requests_get : source)
  (st : fetch_state) : option (py fetch_state) :=
  match fuel with
  | O => None
  | S fuel' =>
      match requests_get
              (full_params (st_offset st) page_limit INITIAL_FETCH_DATE_STR) with
      | Raise e => Some (Raise e)
      | Ret orders =>
          let all_orders' := all_orders st ++ orders in
          if (List.length orders <? page_limit)%nat
          then Some (Ret {| st_offset := st_offset st;
                            all_orders := all_orders' |})
          else full_fetch_loop fuel' requests_get
                 {| st_offset := st_offset st + page_limit;
                    all_orders := all_orders' |}
      end
  end.

(** Line 158, the condition of the comprehension:
    [order.get('orderNumber') and order.get('orderNumber') > last_order_number] *)
Definition is_new_order (last_order_number : Z) (o : order) : bool :=
  match get (orderNumber o) with
  | None => false
  | Some n => negb (n =? 0)%Z && (last_order_number <? n)%Z
  end.

(** Lines 141-164. *)
Fixpoint incremental_fetch_loop (fuel : nat) (requests_get : source)
  (last_order_number : Z) (st : fetch_state) : option (py fetch_state) :=
  match fuel with
  | O => None
  | S fuel' =>
      match requests_get (incremental_params (st_offset st) page_limit) with
      | Raise e => Some (Raise e)
      | Ret orders =>
          match orders with
          | [] => Some (Ret st)
          | _ :: _ =>
              let newly_fetched_orders :=
                filter (is_new_order last_order_number) orders in
              let all_orders' := all_orders st ++ newly_fetched_orders in
              if (List.length orders <? page_limit)%nat
                 || match newly_fetched_orders with [] => true | _ => false end
              then Some (Ret {| st_offset := st_offset st;
                                all_orders := all_orders' |})
              else incremental_fetch_loop fuel' requests_get last_order_number
                     {| st_offset := st_offset st + page_limit;
                        all_orders := all_orders' |}
          end
      end
  end.

(** The loop of [max(l, key=key)] after its first element: [maxitem] is
    replaced by an item whose key is larger; [ValueError] where the key
    raises it. *)
Fixpoint max_from {A : Type} (key : A -> option Z) (maxitem : A) (maxval : Z)
  (rest : list A) : py A :=
  match rest with
  | [] => Ret maxitem
  | item :: rest' =>
      match key item with
      | None => Raise ValueError
      | Some val =>
          if (maxval <? val)%Z then max_from key item val rest'
          else max_from key maxitem maxval rest'
      end
  end.

(** [max(l, key=key)] for a key that may raise [ValueError]: the first
    element whose key is the largest; [ValueError] on an empty list. *)
Definition py_max_key {A : Type} (key : A -> option Z) (l : list A) : py A :=
  match l with
  | [] => Raise ValueError
  | x :: xs =>
      match key x with
      | None => Raise ValueError
      | Some kx => max_from key x kx xs
      end
  end.

(** Line 111: the condition of the [if]. *)
Definition is_full_fetch (existing_order_numbers : list string) : bool :=
  match existing_order_numbers with [] => true | _ :: _ => false end
  || forallb (fun num => negb (PyStr.isdigit num)) existing_order_numbers.

(** Lines 137-138. *)
Definition last_order_number_of (existing_order_numbers : list string)
  : py Z :=
  last_order_number_str <-
    py_max_key PyStr.int (filter PyStr.isdigit existing_order_numbers) ;;
  match PyStr.int last_order_number_str with
  | Some last_order_number => Ret last_order_number
  | None => Raise ValueError
  end.

Inductive fetch_mode : Set :=
| FullFetch
| IncrementalFetch.

Definition fetch_mode_of (existing_order_numbers : list string) : fetch_mode :=
  if is_full_fetch existing_order_numbers then FullFetch else IncrementalFetch.

Definition initial_state : fetch_state :=
  {| st_offset := 0; all_orders := [] |}.

(** Lines 109-167, the body of the [try]: the value of [new_orders_to_add]
    when the body runs to its end, or the exception that leaves it. *)
Definition fetch_body (fuel : nat) (col_values : py (list string))
  (requests_get : source) : option (py (list order)) :=
  match col_values with
  | Raise e => Some (Raise e)
  | Ret existing_order_numbers =>
      if is_full_fetch existing_order_numbers then
        option_map (fun r => st <- r ;; Ret (all_orders st))
          (full_fetch_loop fuel requests_get initial_state)
      else
        match last_order_number_of existing_order_numbers with
        | Raise e => Some (Raise e)
        | Ret last_order_number =>
            option_map (fun r => st <- r ;; Ret (all_orders st))
              (incremental_fetch_loop fuel requests_get last_order_number
                 initial_state)
        end
  end.

(** Lines 108-171: the [try] with its [except Exception]. *)
Definition fetch_stage (fuel : nat) (col_values : py (list string))
  (requests_get : source) : option (list order) :=
  option_map (fun r => match r with
                       | Ret new_orders_to_add => new_orders_to_add
                       | Raise _ => []
                       end)
    (fetch_body fuel col_values requests_get).

(** ** Order flattener *)

(** Lines 204-212: one pass of the loop over an item's options. *)
Definition assign_option (row_for_flattened : flat_row) (opt : selected_option)
  : flat_row :=
  let cleaned_option_name := normalize_option (get_default (opt_name opt) EmptyString) in
  let value := get (opt_value opt) in
  if String.eqb cleaned_option_name "color" then
    {| create_date := create_date row_for_flattened;
       order_number := order_number row_for_flattened;
       product_name := product_name row_for_flattened;
       category := category row_for_flattened;
       size := size row_for_flattened;
       color := value |}
  else if String.eqb cleaned_option_name "size" then
    {| create_date := create_date row_for_flattened;
       order_number := order_number row_for_flattened;
       product_name := product_name row_for_flattened;
       category := category row_for_flattened;
       size := value;
       color := color row_for_flattened |}
  else if String.eqb cleaned_option_name "category" then
    {| create_date := create_date row_for_flattened;
       order_number := order_number row_for_flattened;
       product_name := product_name row_for_flattened;
       category := value;
       size := size row_for_flattened;
       color := color row_for_flattened |}
  else row_for_flattened.

(** Lines 195-216: the row of one line item. *)
Definition item_row (formatted_create_date : option string)
  (number : option Z) (item : line_item) : flat_row :=
  fold_left assign_option (get_default (selectedOptions item) [])
    {| create_date := formatted_create_date;
       order_number := number;
       product_name := get (item_name item);
       category := None; size := None; color := None |}.

Section Flattener.
Context `{DateLib}.

(** Lines 177-218: the rows of one order. *)
Definition flatten_order (o : order) : py (list flat_row) :=
  date <- formatted_create_date (get (createDate o)) ;;
  let number := get (orderNumber o) in
  match get (items o) with
  | None | Some [] =>
      Ret [ {| create_date := date; order_number := number;
               product_name := None; category := None;
               size := None; color := None |} ]
  | Some order_items => Ret (map (item_row date number) order_items)
  end.

(** Lines 174-218: the loop over [new_orders_to_add]. *)
Fixpoint flatten_orders (new_orders_to_add : list order)
  : py (list flat_row) :=
  match new_orders_to_add with
  | [] => Ret []
  | o :: rest =>
      rows <- flatten_order o ;;
      more <- flatten_orders rest ;;
      Ret (rows ++ more)
  end.

End Flattener.

(** ** Row sanitizer and sorter *)

Definition fieldnames_flattened : list string :=
  ["create_date"; "order_number"; "product_name"; "category"; "size"; "color"].

Definition ID_COLUMNS : list string := ["product_name"].
Definition NUMERIC_COLUMNS : list string := ["order_number"].

(** A value of a numeric column: [pd.to_numeric(..., errors='coerce')] turns
    what is not a number into [NaN].  The order numbers of the model are
    integers or null, so that only the null is coerced to [NaN]; pandas holds
    a column with a [NaN] as 64-bit floats, which is exact for the integers
    below 2^53 and is not modelled beyond them. *)
Inductive numeric : Set :=
| NaN
| Num (z : Z).

Definition to_numeric (v : option Z) : numeric :=
  match v with
  | Some z => Num z
  | None => NaN
  end.

(** Lines 234-236 on one value: coerce, then put the null back where the
    coercion gave [NaN]. *)
Definition clean_numeric (v : option Z) : option Z :=
  match to_numeric v with
  | NaN => None
  | Num z => Some z
  end.

(** Lines 231-232 on one value of an object column, as pandas 2 runs them:
    [astype(str)] writes the null as the text [None], [replace] nulls the
    text [<NA>]. *)
Definition clean_id (v : option string) : option string :=
  let s := match v with Some s => s | None => "None" end in
  if String.eqb s "<NA>" then None else Some s.

(** Line 238 on one value: a null stays a null, a string stays as it is. *)
Definition clean_other (v : option string) : option string := v.

Definition mem_string (x : string) (l : list string) : bool :=
  existsb (String.eqb x) l.

(** The branch of lines 229-238 a column takes.  The columns of text are
    never among the numeric ones, nor the number column among the identifier
    ones, in the one call the script makes. *)
Definition clean_text_column (col : string) (id_cols : list string)
  (v : option string) : option string :=
  if mem_string col id_cols then clean_id v else clean_other v.

Definition clean_number_column (col : string) (numeric_cols : list string)
  (v : option Z) : option Z :=
  if mem_string col numeric_cols then clean_numeric v else v.

Definition clean_row (id_cols numeric_cols : list string) (r : flat_row)
  : flat_row :=
  {| create_date := clean_text_column "create_date" id_cols (create_date r);
     order_number :=
       clean_number_column "order_number" numeric_cols (order_number r);
     product_name := clean_text_column "product_name" id_cols (product_name r);
     category := clean_text_column "category" id_cols (category r);
     size := clean_text_column "size" id_cols (size r);
     color := clean_text_column "color" id_cols (color r) |}.

Definition clean_dataframe_for_gspread (df_to_clean : list flat_row)
  (id_cols numeric_cols : list string) : list flat_row :=
  map (clean_row id_cols numeric_cols) df_to_clean.

(** Line 245: the column the frame is sorted by. *)
Definition order_number_sortable (r : flat_row) : numeric :=
  to_numeric (order_number r).

(** The order of [sort_values(ascending=True)]: numbers ascending, [NaN] after
    every number. *)
Definition numeric_leb (a b : numeric) : bool :=
  match a, b with
  | Num x, Num y => (x <=? y)%Z
  | Num _, NaN => true
  | NaN, NaN => true
  | NaN, Num _ => false
  end.

Fixpoint insert_sorted (r : flat_row) (sorted : list flat_row)
  : list flat_row :=
  match sorted with
  | [] => [r]
  | x :: rest =>
      if numeric_leb (order_number_sortable r) (order_number_sortable x)
      then r :: sorted
      else x :: insert_sorted r rest
  end.

(** Line 246.  The sort is pandas's own; this one stands for it, and what is
    proved below uses only that its output holds the rows of its input, each
    as often.  Rows with the same key are kept in their order here; pandas
    does not promise that. *)
Definition sort_values (df : list flat_row) : list flat_row :=
  fold_right insert_sorted [] df.

(** A cell of a row sent to the worksheet. *)
Inductive cell : Set :=
| CNone
| CInt (z : Z)
| CStr (s : string).

Definition text_cell (v : option string) : cell :=
  match v with Some s => CStr s | None => CNone end.

Definition number_cell (v : option Z) : cell :=
  match v with Some z => CInt z | None => CNone end.

(** Lines 250-259: one row of [values.tolist()], nulls for what is missing. *)
Definition row_values (r : flat_row) : list cell :=
  [ text_cell (create_date r); number_cell (order_number r);
    text_cell (product_name r); text_cell (category r);
    text_cell (size r); text_cell (color r) ].

(** ** Destination *)

Definition worksheet : Type := list (list cell).

(** Modelled from the spec: the worksheet client is not part of the script.
    A cell read back is text: a number in decimal, a null as the empty
    text. *)
Definition cell_text (c : cell) : string :=
  match c with
  | CNone => EmptyString
  | CInt z => PyStr.str z
  | CStr s => s
  end.

(** Modelled from the spec: "read all values in a specified column
    (1-indexed) as strings". *)
Definition col_values (ws : worksheet) (col : nat) : list string :=
  map (fun row => cell_text (nth (col - 1) row CNone)) ws.

(** Modelled from the spec: "append a sequence of rows below existing
    content". *)
Definition append_rows (ws : worksheet) (rows : list (list cell))
  : worksheet :=
  ws ++ rows.

(** [l.index(x)] for an [x] that is in [l]. *)
Fixpoint index (x : string) (l : list string) : nat :=
  match l with
  | [] => 0
  | y :: rest => if String.eqb x y then 0 else S (index x rest)
  end.

Record spreadsheet : Type := {
  orders_worksheet : worksheet;
  log_worksheet : worksheet
}.

(** What a run meets outside the script. *)
Record environment : Type := {
  requests_get : source;
  col_values_error : option exn;
  append_rows_error : option exn;
  append_row_error : option exn;
  now_local : string;
  now_utc : string;
  GOOGLE_ORDERS_WORKSHEET_NAME : string
}.

(** Line 109: the order-number column below its header. *)
Definition existing_order_numbers (env : environment) (s : spreadsheet)
  : py (list string) :=
  match col_values_error env with
  | Some e => Raise e
  | None =>
      Ret (tl (col_values (orders_worksheet s)
                 (index "order_number" fieldnames_flattened + 1)))
  end.

(** Lines 249-266. *)
Definition write_stage (env : environment) (flattened_df : list flat_row)
  (ws : worksheet) : py worksheet :=
  match flattened_df with
  | [] => Ret ws
  | _ :: _ =>
      match append_rows_error env with
      | Some e => Raise e
      | None => Ret (append_rows ws (map row_values flattened_df))
      end
  end.

Definition log_entry_flattened (env : environment)
  (num_new_records_written : nat) : list cell :=
  [ CStr (now_local env); CStr (now_utc env);
    CStr ("Incremental update completed. Added "
          ++ PyStr.str (Z.of_nat num_new_records_written)
          ++ " new records to '" ++ GOOGLE_ORDERS_WORKSHEET_NAME env ++ "'.") ].

(** Lines 269-283: the log write with its [except Exception]. *)
Definition log_stage (env : environment) (num_new_records_written : nat)
  (log : worksheet) : worksheet :=
  match append_row_error env with
  | Some _ => log
  | None => log ++ [log_entry_flattened env num_new_records_written]
  end.

(** How a run ends: at the last line, or on an exception nothing catches. *)
Inductive run_end : Type :=
| Finished (s : spreadsheet)
| Uncaught (e : exn) (s : spreadsheet).

Section Orchestrator.
Context `{DateLib}.

(** Lines 173-246: from the fetched orders to the sorted frame. *)
Definition prepare_rows (new_orders_to_add : list order)
  : py (list flat_row) :=
  new_rows_for_flattened_sheet <- flatten_orders new_orders_to_add ;;
  Ret (sort_values
         (clean_dataframe_for_gspread new_rows_for_flattened_sheet
            ID_COLUMNS NUMERIC_COLUMNS)).

(** Lines 173-283, after the fetch. *)
Definition after_fetch (env : environment) (s : spreadsheet)
  (new_orders_to_add : list order) : run_end :=
  match prepare_rows new_orders_to_add with
  | Raise e => Uncaught e s
  | Ret flattened_df =>
      match write_stage env flattened_df (orders_worksheet s) with
      | Raise e => Uncaught e s
      | Ret ws =>
          Finished
            {| orders_worksheet := ws;
               log_worksheet :=
                 log_stage env (List.length flattened_df) (log_worksheet s) |}
      end
  end.

(** Lines 104-283: one run.  [None]: a fetch loop is still running after
    [fuel] requests. *)
Definition sync (fuel : nat) (env : environment) (s : spreadsheet)
  : option run_end :=
  option_map (after_fetch env s)
    (fetch_stage fuel (existing_order_numbers env s) (requests_get env)).

End Orchestrator.

(** ** A recorded [datetime] library

    The answers of CPython's [datetime] and [zoneinfo] on the few strings the
    examples below use; any other string is answered as one that does not
    parse. *)

Module RecordedDates.

Record stamp : Set := {
  wall_clock : string;          (* YYYY-MM-DD HH:MM:SS *)
  utc_offset : option Z         (* minutes east of UTC; [None]: naive *)
}.

Definition naive (w : string) : stamp :=
  {| wall_clock := w; utc_offset := None |}.

Definition aware (w : string) (minutes : Z) : stamp :=
  {| wall_clock := w; utc_offset := Some minutes |}.

Definition recorded_strptime (date_str fmt : string) : option stamp :=
  if String.eqb fmt "%Y-%m-%d %H:%M:%S %z" then
    if String.eqb date_str "2025-04-01 10:00:00 +0000"
    then Some (aware "2025-04-01 10:00:00" 0)
    else None
  else if String.eqb fmt "%Y-%m-%d %H:%M:%S" then
    if String.eqb date_str "2025-04-01 10:00:00"
    then Some (naive "2025-04-01 10:00:00")
    else if String.eqb date_str "9999-12-31 23:30:00"
    then Some (naive "9999-12-31 23:30:00")
    else None
  else if String.eqb fmt "%Y-%m-%d" then
    if String.eqb date_str "2025-04-01"
    then Some (naive "2025-04-01 00:00:00")
    else None
  else None.

Definition recorded_astimezone (d : stamp) : py stamp :=
  match utc_offset d with
  | Some 0%Z =>
      if String.eqb (wall_clock d) "2025-04-01 10:00:00"
      then Ret (aware "2025-04-01 11:00:00" 60)
      else if String.eqb (wall_clock d) "2025-04-01 00:00:00"
      then Ret (aware "2025-04-01 01:00:00" 60)
      else Raise OverflowError
  | _ => Raise OverflowError
  end.

Definition recorded_strftime (d : stamp) (fmt : string) : string :=
  if String.eqb (wall_clock d) "2025-04-01 11:00:00" then "01-04-2025 11:00:00"
  else if String.eqb (wall_clock d) "2025-04-01 01:00:00"
  then "01-04-2025 01:00:00"
  else wall_clock d.

#[export] Instance recorded : DateLib := {
  datetime := stamp;
  strptime := recorded_strptime;
  tzinfo_is_none := fun d => match utc_offset d with None => true | Some _ => false end;
  replace_tzinfo_utc := fun d => aware (wall_clock d) 0;
  astimezone_lagos := recorded_astimezone;
  strftime := recorded_strftime
}.

End RecordedDates.

(** ** The words of the specification *)

(** "A parseable positive integer": digits only, with a value of at least
    one. *)
Definition positive_integer_text (s : string) : bool :=
  PyStr.isdigit s &&
  match PyStr.int s with
  | Some v => (0 <? v)%Z
  | None => false
  end.

(** "The destination's order-number column is empty or contains no parseable
    positive integers." *)
Definition no_positive_integer (column : list string) : Prop :=
  column = [] \/ forall s, In s column -> positive_integer_text s = false.

(** "The numeric values in the destination's order-number column": the values
    of the entries that pass [isdigit] and that [int] converts. *)
Definition numeric_values (column : list string) : list Z :=
  flat_map (fun s =>
              if PyStr.isdigit s then
                match PyStr.int s with
                | Some v => [v]
                | None => []
                end
              else []) column.

(** "lastSeen = max(existing order numbers)". *)
Definition lastSeen (column : list string) : Z :=
  fold_right Z.max 0%Z (numeric_values column).

(** Every entry of the column that passes [isdigit] is one [int] converts. *)
Definition all_convert (column : list string) : Prop :=
  forall s, In s column -> PyStr.isdigit s = true ->
            exists v, PyStr.int s = Some v.

(** The normalized name of an option. *)
Definition option_key (opt : selected_option) : string :=
  normalize_option (get_default (opt_name opt) EmptyString).

(** "The last option whose normalized name matches a given canonical key":
    its value, or null when no option matches. *)
Definition last_matching_value (key : string) (opts : list selected_option)
  : option string :=
  match rev (filter (fun opt => String.eqb (option_key opt) key) opts) with
  | [] => None
  | opt :: _ => get (opt_value opt)
  end.

(** "Options whose normalized name does not match color/size/category." *)
Definition is_row_key (key : string) : bool :=
  String.eqb key "color" || String.eqb key "size" || String.eqb key "category".

(** The orders of the page a request at offset [off] brings; no orders when
    the request fails. *)
Definition page_of (response : py (list order)) : list order :=
  match response with
  | Ret orders => orders
  | Raise _ => []
  end.

Definition full_request (requests_get : source) (off : nat)
  : py (list order) :=
  requests_get (full_params off page_limit INITIAL_FETCH_DATE_STR).

Definition incremental_request (requests_get : source) (off : nat)
  : py (list order) :=
  requests_get (incremental_params off page_limit).

(** What the incremental fetch keeps of a page. *)
Definition retained (last_order_number : Z) (orders : list order)
  : list order :=
  filter (is_new_order last_order_number) orders.

(** "A page returns fewer than 100 items." *)
Definition full_stops_at (requests_get : source) (off : nat) : Prop :=
  exists orders,
    full_request requests_get off = Ret orders /\
    List.length orders < page_limit.

Definition full_continues_at (requests_get : source) (off : nat) : Prop :=
  exists orders,
    full_request requests_get off = Ret orders /\
    page_limit <= List.length orders.

(** "A page is empty, a page is short, or a page yields zero orders above
    lastSeen." *)
Definition incremental_stops_at (requests_get : source) (last : Z) (off : nat)
  : Prop :=
  exists orders,
    incremental_request requests_get off = Ret orders /\
    (orders = [] \/ List.length orders < page_limit \/ retained last orders = []).

Definition incremental_continues_at (requests_get : source) (last : Z)
  (off : nat) : Prop :=
  exists orders,
    incremental_request requests_get off = Ret orders /\
    page_limit <= List.length orders /\ retained last orders <> [].

(** The orders of the page the incremental fetch asks for in its request
    number [j], counting from 0. *)
Definition incremental_page (requests_get : source) (j : nat) : list order :=
  page_of (incremental_request requests_get (j * page_limit)).

(** The same for the full fetch. *)
Definition full_page (requests_get : source) (j : nat) : list order :=
  page_of (full_request requests_get (j * page_limit)).

(** What [new_orders_to_add] is when a loop ends in the state [r]. *)
Definition fetched (r : option (py fetch_state)) : option (py (list order)) :=
  option_map (fun r => st <- r ;; Ret (all_orders st)) r.

(** The offsets of the first [n] requests of a loop that starts at [off]. *)
Definition offsets (off n : nat) : list nat :=
  map (fun j => off + j * page_limit) (seq 0 n).

(** The text of a row's order-number cell, as read back from the sheet. *)
Definition order_number_text (r : flat_row) : string :=
  cell_text (number_cell (order_number r)).

(** ** Sample data *)

Definition unnumbered_order : order :=
  {| orderNumber := Null; createDate := Absent; items := Absent |}.

Definition numbered_order (n : Z) : order :=
  {| orderNumber := Val n; createDate := Absent; items := Absent |}.

Definition tee : line_item :=
  {| item_name := Val "Tee";
     selectedOptions :=
       Some [ {| opt_name := Some "Colour"; opt_value := Val "Red" |};
              {| opt_name := Some "sizing"; opt_value := Val "M" |} ] |}.

Definition tee_order (n : Z) : order :=
  {| orderNumber := Val n;
     createDate := Val "2025-04-01 10:00:00";
     items := Val [tee] |}.

Definition tee_row (n : Z) : list cell :=
  [ CStr "01-04-2025 11:00:00"; CInt n; CStr "Tee"; CNone; CStr "M";
    CStr "Red" ].

(** A source that holds the given orders, fewer than a page of them. *)
Definition small_source (orders : list order) : source :=
  fun p => if (offset p =? 0)%nat then Ret orders else Ret [].

(** A source that cannot be reached. *)
Definition failing_source : source := fun _ => Raise RequestException.

Definition sample_environment (requests_get : source) : environment :=
  {| requests_get := requests_get;
     col_values_error := None;
     append_rows_error := None;
     append_row_error := None;
     now_local := "2025-04-02 09:00:00 WAT+0100";
     now_utc := "2025-04-02 08:00:00 UTC+0000";
     GOOGLE_ORDERS_WORKSHEET_NAME := "Orders Data" |}.

Definition header_flattened : list cell :=
  [ CStr "ORDER DATETIME"; CStr "ORDER NO"; CStr "PRODUCT NAME";
    CStr "PRODUCT CATEGORY"; CStr "PRODUCT SIZE"; CStr "PRODUCT COLOUR" ].

Definition log_header : list cell :=
  [ CStr "Timestamp (Local Time)"; CStr "Timestamp (UTC)"; CStr "Description" ].

(** A worksheet that exists and holds nothing, not even the header row. *)
Definition blank_book : spreadsheet :=
  {| orders_worksheet := []; log_worksheet := [log_header] |}.

(** A worksheet with its header and the given rows. *)
Definition book_with (rows : list (list cell)) : spreadsheet :=
  {| orders_worksheet := header_flattened :: rows;
     log_worksheet := [log_header] |}.

(** The spreadsheet a run leaves when it reaches its last line. *)
Definition left_by (r : option run_end) (otherwise : spreadsheet)
  : spreadsheet :=
  match r with
  | Some (Finished s) => s
  | _ => otherwise
  end.

Definition two_order_env : environment :=
  sample_environment (small_source [tee_order 5; tee_order 7]).

(** The spreadsheet after a first, incremental run over two orders of which
    the sheet already holds the first. *)
Definition after_incremental_run : spreadsheet :=
  left_by (@sync RecordedDates.recorded 1 two_order_env (book_with [tee_row 5]))
    blank_book.

Definition one_order_env : environment :=
  sample_environment (small_source [tee_order 5]).

(** The spreadsheet after a first, full run on a worksheet that holds its
    header. *)
Definition after_full_run : spreadsheet :=
  left_by (@sync RecordedDates.recorded 1 one_order_env (book_with []))
    blank_book.

(** The spreadsheet after a first run on a blank worksheet. *)
Definition after_run_on_blank : spreadsheet :=
  left_by (@sync RecordedDates.recorded 1 one_order_env blank_book) blank_book.

(** ** Further definitions *)

Definition upper_char (c : ascii) : ascii :=
  let n := nat_of_ascii c in
  if (97 <=? n)%nat && (n <=? 122)%nat then ascii_of_nat (n - 32) else c.

(** [s.upper()], on the ASCII letters. *)
Fixpoint upper (s : string) : string :=
  match s with
  | EmptyString => EmptyString
  | String c s' => String (upper_char c) (upper s')
  end.

(** [s.isascii()]: every byte is below 128. *)
Definition isascii (s : string) : bool :=
  PyStr.all_chars (fun c => (nat_of_ascii c <? 128)%nat) s.

Definition color_keywords : list string :=
  ["color"; "colour"; "coloue"; "colours"; "cours"].
Definition size_keywords : list string := ["size"; "sizing"; "sizs"].
Definition category_keywords : list string :=
  ["category"; "caregory"; "categories"; "catgory"].

(** The number of rows lines 186-218 add for one order. *)
Definition row_count (o : order) : nat :=
  match get (items o) with
  | Some (item :: rest) => List.length (item :: rest)
  | _ => 1
  end.

(** The spreadsheet a run leaves behind, however it ends. *)
Definition spreadsheet_of (r : run_end) : spreadsheet :=
  match r with
  | Finished s => s
  | Uncaught _ s => s
  end.

(** *** Connection setup (lines 76-102) *)

(** The worksheets of a spreadsheet, by title. *)
Definition workbook : Type := list (string * worksheet).

(** [spreadsheet.worksheet(title)]; [None] where it raises
    [WorksheetNotFound]. *)
Fixpoint find_worksheet (title : string) (wb : workbook) : option worksheet :=
  match wb with
  | [] => None
  | (t, ws) :: rest =>
      if String.eqb t title then Some ws else find_worksheet title rest
  end.

(** [add_worksheet] followed by [update([header])]. *)
Definition add_worksheet (title : string) (header : list cell) (wb : workbook)
  : workbook :=
  wb ++ [(title, [header])].

(** One [try: worksheet(...) except WorksheetNotFound: add_worksheet(...)]. *)
Definition ensure_worksheet (title : string) (header : list cell)
  (wb : workbook) : workbook :=
  match find_worksheet title wb with
  | Some _ => wb
  | None => add_worksheet title header wb
  end.

(** Lines 78-102.  [opened] is what [gc.open] finds ([None]:
    [SpreadsheetNotFound]), [created] what [gc.create] makes. *)
Definition connect (opened : option workbook) (created : workbook)
  (orders_name log_name : string) : workbook :=
  let spreadsheet :=
    match opened with
    | Some wb => wb
    | None => created
    end in
  ensure_worksheet log_name log_header
    (ensure_worksheet orders_name header_flattened spreadsheet).

(** The two worksheets the rest of the script works on. *)
Definition handles (wb : workbook) (orders_name log_name : string)
  : option spreadsheet :=
  match find_worksheet orders_name wb, find_worksheet log_name wb with
  | Some o, Some l => Some {| orders_worksheet := o; log_worksheet := l |}
  | _, _ => None
  end.

(** *** More sample data *)

(** A source with one full page of old orders, then a page with a new one. *)
Definition two_page_source : source :=
  fun p =>
    if (offset p =? 0)%nat then Ret (repeat (numbered_order 1) 100)
    else if (offset p =? 100)%nat then Ret [numbered_order 500]
    else Ret [].

(** A source whose second request fails. *)
Definition breaking_source : source :=
  fun p =>
    if (offset p =? 0)%nat then Ret (repeat (numbered_order 9) 100)
    else Raise RequestException.

(** An environment whose append to the orders worksheet fails. *)
Definition append_failing_env (requests_get : source) : environment :=
  {| requests_get := requests_get;
     col_values_error := None;
     append_rows_error := Some APIError;
     append_row_error := None;
     now_local := "2025-04-02 09:00:00 WAT+0100";
     now_utc := "2025-04-02 08:00:00 UTC+0000";
     GOOGLE_ORDERS_WORKSHEET_NAME := "Orders Data" |}.

Definition far_future_order : order :=
  {| orderNumber := Val 500%Z; createDate := Val "9999-12-31 23:30:00";
     items := Val [] |}.

(** A source whose listing by creation date holds one order, and whose
    listing by ascending number holds a second one, created before
    [INITIAL_FETCH_DATE_STR]. *)
Definition dated_source : source :=
  fun p =>
    if (offset p =? 0)%nat then
      match createdFrom p with
      | Some _ => Ret [tee_order 5]
      | None => Ret [tee_order 5; tee_order 10]
      end
    else Ret [].

Definition dated_env : environment := sample_environment dated_source.

(** The spreadsheet after a first run over [dated_source] on a worksheet
    that holds its header. *)
Definition after_dated_run : spreadsheet :=
  left_by (@sync RecordedDates.recorded 1 dated_env (book_with [])) blank_book.

(** An order with a null number. *)
Definition unnumbered_tee_order : order :=
  {| orderNumber := Null;
     createDate := Val "2025-04-01 10:00:00";
     items := Val [tee] |}.

Definition unnumbered_env : environment :=
  sample_environment (small_source [unnumbered_tee_order]).

(** The row of [unnumbered_tee_order]. *)
Definition unnumbered_row : list cell :=
  [ CStr "01-04-2025 11:00:00"; CNone; CStr "Tee"; CNone; CStr "M";
    CStr "Red" ].

(** The spreadsheet after a first run over an order without a number on a
    worksheet that holds its header. *)
Definition after_unnumbered_run : spreadsheet :=
  left_by (@sync RecordedDates.recorded 1 unnumbered_env (book_with []))
    blank_book.

(** An environment in which the order-number column cannot be read. *)
Definition unread_env : environment :=
  {| requests_get := small_source [tee_order 5];
     col_values_error := Some APIError;
     append_rows_error := None;
     append_row_error := None;
     now_local := "2025-04-02 09:00:00 WAT+0100";
     now_utc := "2025-04-02 08:00:00 UTC+0000";
     GOOGLE_ORDERS_WORKSHEET_NAME := "Orders Data" |}.

(** The spreadsheet after a first run that could not read the column. *)
Definition after_unread_run : spreadsheet :=
  left_by (@sync RecordedDates.recorded 1 unread_env (book_with [])) blank_book.

(** ** Facts about the strings *)

Lemma isdigit_string_of_uint (d : Decimal.uint) :
  PyStr.all_chars PyStr.is_ascii_digit (NilEmpty.string_of_uint d) = true.
Proof.
  induction d; simpl; auto.
Qed.

(** One of the characters 0 to 9 is a single byte, a decimal digit, and its
    own plain form. *)
Lemma ascii_digit_char (c : ascii) :
  PyStr.is_ascii_digit c = true ->
  (N_of_ascii c <? 128)%N = true /\
  PyStr.is_digit (N_of_ascii c) = true /\
  exists v, PyStr.decimal_value (N_of_ascii c) = Some v /\
            ascii_of_N (48 + v) = c.
Proof.
  destruct c as [[] [] [] [] [] [] [] []]; try discriminate; intros _;
    (split; [reflexivity | split; [reflexivity | eexists; split; reflexivity]]).
Qed.

Lemma code_points_low (c : ascii) (s : string) :
  (N_of_ascii c <? 128)%N = true ->
  PyStr.code_points (String c s) =
  option_map (cons (N_of_ascii c)) (PyStr.code_points s).
Proof.
  intros Hlow. cbn [PyStr.code_points]. cbv zeta. now rewrite Hlow.
Qed.

(** A text written with the characters 0 to 9 only: its code points are its
    bytes, all of them digits, and its plain form is the text itself. *)
Lemma ascii_digit_text (s : string) :
  PyStr.all_chars PyStr.is_ascii_digit s = true ->
  PyStr.code_points s = Some (map N_of_ascii (list_ascii_of_string s)) /\
  forallb PyStr.is_digit (map N_of_ascii (list_ascii_of_string s)) = true /\
  PyStr.ascii_digits (map N_of_ascii (list_ascii_of_string s)) = Some s.
Proof.
  induction s as [|c s IH]; [intros _; repeat split|].
  cbn [PyStr.all_chars]. intros Hall. apply andb_true_iff in Hall.
  destruct Hall as [Hc Hs]. destruct (IH Hs) as (Hcp & Hdig & Hplain).
  destruct (ascii_digit_char c Hc) as (Hlow & Hd & v & Hv & Hback).
  cbn [list_ascii_of_string map forallb PyStr.ascii_digits].
  rewrite (code_points_low c s Hlow), Hcp, Hd, Hdig, Hv, Hplain, Hback.
  repeat split.
Qed.

Lemma isdigit_str (n : Z) : (0 <= n)%Z -> PyStr.isdigit (PyStr.str n) = true.
Proof.
  intros Hn. unfold PyStr.str.
  destruct n as [|p|p]; [reflexivity| |lia].
  cbn [Z.to_int NilEmpty.string_of_int].
  destruct (ascii_digit_text _ (isdigit_string_of_uint (Pos.to_uint p)))
    as (Hcp & Hdig & _).
  unfold PyStr.isdigit. rewrite Hcp.
  generalize (DecimalPos.Unsigned.to_uint_nonnil p). revert Hdig.
  destruct (Pos.to_uint p); cbn [NilEmpty.string_of_uint list_ascii_of_string
                                   map]; intros; congruence.
Qed.

(** Read back, the decimal text of a number that is not negative is that
    number, unless the text is longer than [int] converts. *)
Lemma int_str (n : Z) :
  (0 <= n)%Z ->
  PyStr.int (PyStr.str n) = Some n \/ PyStr.int (PyStr.str n) = None.
Proof.
  intros Hn. unfold PyStr.str.
  destruct n as [|p|p]; [left; reflexivity| |lia].
  cbn [Z.to_int NilEmpty.string_of_int].
  destruct (ascii_digit_text _ (isdigit_string_of_uint (Pos.to_uint p)))
    as (Hcp & _ & Hplain).
  unfold PyStr.int. rewrite Hcp.
  destruct (map N_of_ascii _) as [|c rest] eqn:E; [now right|].
  destruct (List.length (c :: rest) <=? PyStr.int_max_str_digits)%nat;
    [|now right].
  rewrite Hplain, NilEmpty.usu. left. cbn [option_map].
  unfold N.of_uint. now rewrite DecimalPos.Unsigned.of_to.
Qed.

Lemma int_str_some (n v : Z) :
  (0 <= n)%Z -> PyStr.int (PyStr.str n) = Some v -> v = n.
Proof.
  intros Hn Hv. destruct (int_str n Hn) as [E | E]; congruence.
Qed.

Lemma int_nonneg (s : string) (v : Z) : PyStr.int s = Some v -> (0 <= v)%Z.
Proof.
  unfold PyStr.int.
  destruct (PyStr.code_points s) as [[|c rest]|]; try discriminate.
  destruct (_ <=? _)%nat; [|discriminate].
  destruct (PyStr.ascii_digits _) as [t|]; [|discriminate].
  destruct (NilEmpty.uint_of_string t); [|discriminate].
  cbn. intros E. injection E as <-. lia.
Qed.

(** ** Facts about the mode selection and the watermark *)

Lemma is_full_fetch_spec (col : list string) :
  is_full_fetch col = true <->
  (col = [] \/ forall s, In s col -> PyStr.isdigit s = false).
Proof.
  unfold is_full_fetch. rewrite orb_true_iff, forallb_forall. split.
  - intros [Hnil | Hall].
    + destruct col; [now left | discriminate].
    + right. intros s Hs. apply Hall in Hs.
      now apply negb_true_iff in Hs.
  - intros [-> | Hall]; [now left |].
    right. intros s Hs. apply negb_true_iff. now apply Hall.
Qed.

Lemma is_full_fetch_false (col : list string) :
  is_full_fetch col = false <-> exists s, In s col /\ PyStr.isdigit s = true.
Proof.
  split.
  - intros Hf. unfold is_full_fetch in Hf. apply orb_false_iff in Hf.
    destruct Hf as [_ Hf].
    induction col as [|x xs IH]; [discriminate|].
    simpl in Hf. destruct (PyStr.isdigit x) eqn:Hx.
    + exists x. split; [now left | assumption].
    + simpl in Hf. destruct (IH Hf) as (s & Hs & Hd).
      exists s. split; [now right | assumption].
  - intros (s & Hs & Hd).
    destruct (is_full_fetch col) eqn:Hf; [|reflexivity].
    apply is_full_fetch_spec in Hf. destruct Hf as [-> | Hall].
    + destruct Hs.
    + rewrite (Hall s Hs) in Hd. discriminate.
Qed.

Lemma numeric_values_in (col : list string) (v : Z) :
  In v (numeric_values col) <->
  exists s, In s col /\ PyStr.isdigit s = true /\ PyStr.int s = Some v.
Proof.
  unfold numeric_values. rewrite in_flat_map. split.
  - intros (s & Hs & Hv). exists s. split; [exact Hs|].
    destruct (PyStr.isdigit s); [|destruct Hv].
    destruct (PyStr.int s) as [w|]; [|destruct Hv].
    destruct Hv as [<- | []]. auto.
  - intros (s & Hs & Hd & Hv). exists s. split; [exact Hs|].
    rewrite Hd, Hv. now left.
Qed.

Lemma max_from_ret {A : Type} (key : A -> option Z) (rest : list A)
  (maxitem : A) (maxval : Z) (r : A) :
  max_from key maxitem maxval rest = Ret r ->
  (forall y, In y rest -> exists ky, key y = Some ky) /\
  (r = maxitem /\ (forall y ky, In y rest -> key y = Some ky ->
                                (ky <= maxval)%Z)
   \/ exists kr, In r rest /\ key r = Some kr /\ (maxval <= kr)%Z /\
                 forall y ky, In y rest -> key y = Some ky -> (ky <= kr)%Z).
Proof.
  revert maxitem maxval. induction rest as [|item rest IH];
    intros maxitem maxval; cbn [max_from].
  - intros E. injection E as <-. split; [intros y []|].
    left. split; [reflexivity | intros y ky []].
  - destruct (key item) as [val|] eqn:Hkey; [|discriminate].
    destruct (maxval <? val)%Z eqn:Hlt; intros Hret;
      destruct (IH _ _ Hret) as (Hall & Hcase);
      (split; [intros y [<- | Hy]; eauto |]).
    + apply Z.ltb_lt in Hlt. right.
      destruct Hcase as [(-> & Hle) | (kr & Hin & Hkr & Hge & Hle)].
      * exists val. split; [now left|]. split; [exact Hkey|].
        split; [lia|]. intros y ky [<- | Hy] Hky; [|eauto].
        rewrite Hkey in Hky. injection Hky as <-. lia.
      * exists kr. split; [now right|]. split; [exact Hkr|].
        split; [lia|]. intros y ky [<- | Hy] Hky; [|eauto].
        rewrite Hkey in Hky. injection Hky as <-. exact Hge.
    + apply Z.ltb_ge in Hlt.
      destruct Hcase as [(-> & Hle) | (kr & Hin & Hkr & Hge & Hle)].
      * left. split; [reflexivity|].
        intros y ky [<- | Hy] Hky; [|eauto].
        rewrite Hkey in Hky. injection Hky as <-. exact Hlt.
      * right. exists kr. split; [now right|]. split; [exact Hkr|].
        split; [exact Hge|]. intros y ky [<- | Hy] Hky; [|eauto].
        rewrite Hkey in Hky. injection Hky as <-. lia.
Qed.

Lemma max_from_returns {A : Type} (key : A -> option Z) (rest : list A)
  (maxitem : A) (maxval : Z) :
  (forall y, In y rest -> exists ky, key y = Some ky) ->
  exists r, max_from key maxitem maxval rest = Ret r.
Proof.
  revert maxitem maxval. induction rest as [|item rest IH];
    intros maxitem maxval Hall; cbn [max_from]; [eauto|].
  destruct (Hall item (or_introl eq_refl)) as (val & ->).
  destruct (maxval <? val)%Z; apply IH; intros y Hy; apply Hall; now right.
Qed.

Lemma max_from_raise {A : Type} (key : A -> option Z) (rest : list A)
  (maxitem : A) (maxval : Z) (e : exn) :
  max_from key maxitem maxval rest = Raise e -> e = ValueError.
Proof.
  revert maxitem maxval. induction rest as [|item rest IH];
    intros maxitem maxval; cbn [max_from]; [discriminate|].
  destruct (key item) as [val|]; [|now intros E; injection E].
  destruct (maxval <? val)%Z; apply IH.
Qed.

Lemma fold_right_max_upper (l : list Z) (z : Z) :
  In z l -> (z <= fold_right Z.max 0%Z l)%Z.
Proof.
  induction l as [|a l IH]; simpl; [tauto|].
  intros [<- | Hin]; [lia | specialize (IH Hin); lia].
Qed.

Lemma fold_right_max_attained (l : list Z) :
  l <> [] -> (forall z, In z l -> (0 <= z)%Z) ->
  In (fold_right Z.max 0%Z l) l.
Proof.
  induction l as [|a l IH]; [congruence|]. intros _ Hpos. simpl.
  destruct l as [|b l].
  - simpl. left. specialize (Hpos a (or_introl eq_refl)). lia.
  - assert (Hin : In (fold_right Z.max 0%Z (b :: l)) (b :: l)).
    { apply IH; [congruence|]. intros z Hz. apply Hpos. now right. }
    destruct (Z.max_spec a (fold_right Z.max 0%Z (b :: l))) as [[_ E] | [_ E]];
      rewrite E; [now right | now left].
Qed.

Lemma lastSeen_nonneg (col : list string) : (0 <= lastSeen col)%Z.
Proof.
  unfold lastSeen. induction (numeric_values col); simpl; lia.
Qed.

Lemma lastSeen_upper (col : list string) (s : string) (v : Z) :
  In s col -> PyStr.isdigit s = true -> PyStr.int s = Some v ->
  (v <= lastSeen col)%Z.
Proof.
  intros Hs Hd Hv. apply fold_right_max_upper, numeric_values_in. eauto.
Qed.

Lemma lastSeen_attained (col : list string) (s : string) (v : Z) :
  In s col -> PyStr.isdigit s = true -> PyStr.int s = Some v ->
  exists t,
    In t col /\ PyStr.isdigit t = true /\ PyStr.int t = Some (lastSeen col).
Proof.
  intros Hs Hd Hv. apply numeric_values_in, fold_right_max_attained.
  - intros E.
    assert (Hin : In v (numeric_values col)) by (apply numeric_values_in; eauto).
    rewrite E in Hin. destruct Hin.
  - intros z Hz. apply numeric_values_in in Hz.
    destruct Hz as (t & _ & _ & Ht). exact (int_nonneg _ _ Ht).
Qed.

(** When lines 137-138 give a watermark, [int] has converted every entry
    that passes [isdigit], and the watermark is the largest of the values. *)
Lemma last_order_number_ret (col : list string) (w : Z) :
  last_order_number_of col = Ret w ->
  all_convert col /\ w = lastSeen col /\ is_full_fetch col = false.
Proof.
  unfold last_order_number_of, py_max_key.
  destruct (filter PyStr.isdigit col) as [|x xs] eqn:E; [discriminate|].
  assert (Hfil : forall s, In s col /\ PyStr.isdigit s = true <->
                           In s (x :: xs)).
  { intros s. rewrite <- E. symmetry. apply filter_In. }
  destruct (PyStr.int x) as [kx|] eqn:Hx; [|discriminate].
  destruct (max_from PyStr.int x kx xs) as [r|e] eqn:Hmax; [|discriminate].
  cbn [bind]. destruct (PyStr.int r) as [kr|] eqn:Hr; [|discriminate].
  intros Ew. injection Ew as <-.
  destruct (max_from_ret _ _ _ _ _ Hmax) as (Hall & Hcase).
  assert (Hconv : all_convert col).
  { intros s Hs Hd. destruct (proj1 (Hfil s) (conj Hs Hd)) as [<- | Hin];
      [eauto | now apply Hall]. }
  assert (Hrin : In r (x :: xs)).
  { destruct Hcase as [(-> & _) | (k & Hin & _)]; [now left | now right]. }
  assert (Hmaxv : forall s v, In s (x :: xs) -> PyStr.int s = Some v ->
                              (v <= kr)%Z).
  { intros s v Hs Hv.
    destruct Hcase as [(-> & Hle) | (k & Hin & Hk & Hge & Hle)].
    - rewrite Hx in Hr. injection Hr as <-.
      destruct Hs as [<- | Hs]; [|eauto].
      rewrite Hx in Hv. injection Hv as <-. lia.
    - rewrite Hr in Hk. injection Hk as <-.
      destruct Hs as [<- | Hs]; [|eauto].
      rewrite Hx in Hv. injection Hv as <-. exact Hge. }
  apply Hfil in Hrin. destruct Hrin as [Hrcol Hrd].
  split; [exact Hconv|]. split.
  - apply Z.le_antisymm; [exact (lastSeen_upper _ _ _ Hrcol Hrd Hr)|].
    destruct (lastSeen_attained _ _ _ Hrcol Hrd Hr) as (t & Ht & Htd & Htv).
    apply (Hmaxv t); [apply Hfil; auto | exact Htv].
  - apply is_full_fetch_false. eauto.
Qed.

Lemma last_order_number_raise (col : list string) (e : exn) :
  last_order_number_of col = Raise e -> e = ValueError.
Proof.
  unfold last_order_number_of, py_max_key.
  destruct (filter PyStr.isdigit col) as [|x xs];
    [now intros E; injection E|].
  destruct (PyStr.int x) as [kx|]; [|now intros E; injection E].
  destruct (max_from PyStr.int x kx xs) as [r|e'] eqn:Hmax; cbn [bind].
  - destruct (PyStr.int r); [discriminate | now intros E; injection E].
  - intros E. injection E as <-. exact (max_from_raise _ _ _ _ _ Hmax).
Qed.

(** When [int] converts every entry that passes [isdigit], and there is one,
    lines 137-138 give the largest value as the watermark. *)
Lemma last_order_number_converts (col : list string) :
  is_full_fetch col = false -> all_convert col ->
  last_order_number_of col = Ret (lastSeen col).
Proof.
  intros Hf Hconv.
  assert (Hret : exists w, last_order_number_of col = Ret w).
  { apply is_full_fetch_false in Hf. destruct Hf as (s & Hs & Hd).
    unfold last_order_number_of, py_max_key.
    destruct (filter PyStr.isdigit col) as [|x xs] eqn:E.
    - assert (Hin : In s (filter PyStr.isdigit col))
        by (apply filter_In; auto).
      rewrite E in Hin. destruct Hin.
    - assert (Hfil : forall t, In t (x :: xs) ->
                               exists v, PyStr.int t = Some v).
      { intros t Ht. rewrite <- E in Ht. apply filter_In in Ht.
        destruct Ht. now apply Hconv. }
      destruct (Hfil x (or_introl eq_refl)) as (kx & Hx). rewrite Hx.
      destruct (max_from_returns PyStr.int xs x kx) as (r & Hmax).
      { intros y Hy. apply Hfil. now right. }
      rewrite Hmax. cbn [bind].
      assert (Hrin : In r (x :: xs)).
      { destruct (max_from_ret _ _ _ _ _ Hmax) as (_ & [(-> & _) | (k & Hin & _)]);
          [now left | now right]. }
      destruct (Hfil r Hrin) as (kr & ->). eauto. }
  destruct Hret as (w & Hw).
  destruct (last_order_number_ret _ _ Hw) as (_ & -> & _). exact Hw.
Qed.

(** ** Facts about the fetch loops *)

Lemma offsets_S (off n : nat) :
  offsets off (S n) = off :: offsets (off + page_limit) n.
Proof.
  unfold offsets. simpl. rewrite <- seq_shift, map_map.
  f_equal; [lia |]. apply map_ext. intros j. lia.
Qed.

Lemma full_fetch_loop_unfold (fuel : nat) (get_page : source)
  (st : fetch_state) :
  full_fetch_loop (S fuel) get_page st =
  match full_request get_page (st_offset st) with
  | Raise e => Some (Raise e)
  | Ret orders =>
      if (List.length orders <? page_limit)%nat
      then Some (Ret {| st_offset := st_offset st;
                        all_orders := all_orders st ++ orders |})
      else full_fetch_loop fuel get_page
             {| st_offset := st_offset st + page_limit;
                all_orders := all_orders st ++ orders |}
  end.
Proof. reflexivity. Qed.

Lemma incremental_fetch_loop_unfold (fuel : nat) (get_page : source)
  (last : Z) (st : fetch_state) :
  incremental_fetch_loop (S fuel) get_page last st =
  match incremental_request get_page (st_offset st) with
  | Raise e => Some (Raise e)
  | Ret [] => Some (Ret st)
  | Ret orders =>
      if (List.length orders <? page_limit)%nat
         || match retained last orders with [] => true | _ => false end
      then Some (Ret {| st_offset := st_offset st;
                        all_orders := all_orders st ++ retained last orders |})
      else incremental_fetch_loop fuel get_page last
             {| st_offset := st_offset st + page_limit;
                all_orders := all_orders st ++ retained last orders |}
  end.
Proof.
  simpl. unfold incremental_request, retained.
  destruct (get_page _) as [[|o orders]|e]; reflexivity.
Qed.

(** The full loop is still running after [k] requests exactly when each of
    them brought a full page. *)
Lemma full_fetch_loop_running (k : nat) (get_page : source) (st : fetch_state) :
  full_fetch_loop k get_page st = None <->
  forall j, j < k -> full_continues_at get_page (st_offset st + j * page_limit).
Proof.
  revert st. induction k as [|k IH]; intros st.
  - split; [intros _ j Hj; lia | reflexivity].
  - rewrite full_fetch_loop_unfold. split.
    + intros Hrun j Hj.
      destruct (full_request get_page (st_offset st)) as [orders|e] eqn:Hreq;
        [|discriminate].
      destruct (List.length orders <? page_limit)%nat eqn:Hlen; [discriminate|].
      apply Nat.ltb_ge in Hlen.
      destruct j as [|j].
      * exists orders. rewrite Nat.mul_0_l, Nat.add_0_r. auto.
      * apply IH with (j := j) in Hrun; [|lia]. simpl in Hrun.
        replace (st_offset st + S j * page_limit)
          with (st_offset st + page_limit + j * page_limit) by lia.
        exact Hrun.
    + intros Hall.
      destruct (Hall 0) as (orders & Hreq & Hlen); [lia|].
      rewrite Nat.mul_0_l, Nat.add_0_r in Hreq. rewrite Hreq.
      apply Nat.ltb_ge in Hlen. rewrite Hlen.
      apply IH. intros j Hj. simpl.
      replace (st_offset st + page_limit + j * page_limit)
        with (st_offset st + S j * page_limit) by lia.
      apply Hall. lia.
Qed.

(** When the full loop ends normally, it has made [k + 1] requests for some
    [k]; the last page was short and everything fetched was kept. *)
Lemma full_fetch_loop_result (fuel : nat) (get_page : source)
  (st st' : fetch_state) :
  full_fetch_loop fuel get_page st = Some (Ret st') ->
  exists k,
    k < fuel /\
    full_fetch_loop k get_page st = None /\
    full_stops_at get_page (st_offset st + k * page_limit) /\
    st_offset st' = st_offset st + k * page_limit /\
    all_orders st' =
      all_orders st ++
      flat_map (fun off => page_of (full_request get_page off))
        (offsets (st_offset st) (S k)).
Proof.
  revert st. induction fuel as [|fuel IH]; intros st; [discriminate|].
  rewrite full_fetch_loop_unfold.
  destruct (full_request get_page (st_offset st)) as [orders|e] eqn:Hreq;
    [|discriminate].
  destruct (List.length orders <? page_limit)%nat eqn:Hlen.
  - intros E. injection E as <-. exists 0. simpl.
    rewrite Nat.add_0_r. repeat split; try lia.
    + exists orders. apply Nat.ltb_lt in Hlen. auto.
    + unfold offsets. simpl. rewrite Hreq. simpl.
      now rewrite app_nil_r.
  - intros Hrec. apply IH in Hrec.
    destruct Hrec as (k & Hk & Hrun & Hstop & Hoff & Hall).
    cbn [st_offset all_orders] in *.
    exists (S k). repeat split.
    + lia.
    + rewrite full_fetch_loop_unfold, Hreq, Hlen. exact Hrun.
    + replace (st_offset st + S k * page_limit)
        with (st_offset st + page_limit + k * page_limit) by lia.
      exact Hstop.
    + lia.
    + rewrite Hall, (offsets_S (st_offset st) (S k)). cbn [flat_map].
      rewrite Hreq. cbn [page_of]. now rewrite <- app_assoc.
Qed.

(** A short page after [k] full ones ends the full loop at request
    [k + 1]. *)
Lemma full_fetch_loop_stops (k : nat) (get_page : source) (st : fetch_state) :
  (forall j, j < k ->
     full_continues_at get_page (st_offset st + j * page_limit)) ->
  full_stops_at get_page (st_offset st + k * page_limit) ->
  exists st',
    st_offset st' = st_offset st + k * page_limit /\
    forall fuel, k < fuel -> full_fetch_loop fuel get_page st = Some (Ret st').
Proof.
  revert st. induction k as [|k IH]; intros st Hcont Hstop.
  - destruct Hstop as (orders & Hreq & Hlen).
    rewrite Nat.mul_0_l, Nat.add_0_r in Hreq. apply Nat.ltb_lt in Hlen.
    exists {| st_offset := st_offset st;
              all_orders := all_orders st ++ orders |}.
    split; [cbn [st_offset]; lia |].
    intros [|fuel] Hf; [lia|].
    rewrite full_fetch_loop_unfold, Hreq, Hlen. reflexivity.
  - destruct (Hcont 0) as (orders & Hreq & Hlen); [lia|].
    rewrite Nat.mul_0_l, Nat.add_0_r in Hreq. apply Nat.ltb_ge in Hlen.
    destruct (IH {| st_offset := st_offset st + page_limit;
                    all_orders := all_orders st ++ orders |})
      as (st' & Hoff & Hst').
    + intros j Hj. simpl.
      replace (st_offset st + page_limit + j * page_limit)
        with (st_offset st + S j * page_limit) by lia.
      apply Hcont. lia.
    + simpl.
      replace (st_offset st + page_limit + k * page_limit)
        with (st_offset st + S k * page_limit) by lia.
      exact Hstop.
    + exists st'. split; [cbn [st_offset] in Hoff; lia |].
      intros [|fuel] Hf; [lia|].
      rewrite full_fetch_loop_unfold, Hreq, Hlen. apply Hst'. lia.
Qed.

Lemma retained_nil_test (last : Z) (orders : list order) :
  match retained last orders with [] => true | _ :: _ => false end = true <->
  retained last orders = [].
Proof.
  destruct (retained last orders); split; intros; congruence.
Qed.

(** The incremental loop is still running after [k] requests exactly when
    each of them brought a full page with an order above the watermark. *)
Lemma incremental_fetch_loop_running (k : nat) (get_page : source) (last : Z)
  (st : fetch_state) :
  incremental_fetch_loop k get_page last st = None <->
  forall j, j < k ->
    incremental_continues_at get_page last (st_offset st + j * page_limit).
Proof.
  revert st. induction k as [|k IH]; intros st.
  - split; [intros _ j Hj; lia | reflexivity].
  - rewrite incremental_fetch_loop_unfold. split.
    + intros Hrun j Hj.
      destruct (incremental_request get_page (st_offset st))
        as [[|o orders]|e] eqn:Hreq; try discriminate.
      destruct (List.length (o :: orders) <? page_limit)%nat eqn:Hlen;
        [discriminate|].
      destruct (retained last (o :: orders)) as [|r rs] eqn:Hret;
        [discriminate|].
      cbn [orb] in Hrun. apply Nat.ltb_ge in Hlen.
      destruct j as [|j].
      * exists (o :: orders). rewrite Nat.mul_0_l, Nat.add_0_r.
        repeat split; auto. rewrite Hret. discriminate.
      * apply IH with (j := j) in Hrun; [|lia].
        cbn [st_offset] in Hrun.
        replace (st_offset st + S j * page_limit)
          with (st_offset st + page_limit + j * page_limit) by lia.
        exact Hrun.
    + intros Hall.
      destruct (Hall 0) as (orders & Hreq & Hlen & Hret); [lia|].
      rewrite Nat.mul_0_l, Nat.add_0_r in Hreq. rewrite Hreq.
      destruct orders as [|o orders]; [now destruct Hret|].
      apply Nat.ltb_ge in Hlen. rewrite Hlen.
      destruct (retained last (o :: orders)) as [|r rs] eqn:E; [congruence|].
      cbn [orb]. apply IH. intros j Hj. cbn [st_offset].
      replace (st_offset st + page_limit + j * page_limit)
        with (st_offset st + S j * page_limit) by lia.
      apply Hall. lia.
Qed.

(** When the incremental loop ends normally, it has made [k + 1] requests for
    some [k]; the last page met a stop condition, and [all_orders] has grown
    by what was retained of each page. *)
Lemma incremental_fetch_loop_result (fuel : nat) (get_page : source)
  (last : Z) (st st' : fetch_state) :
  incremental_fetch_loop fuel get_page last st = Some (Ret st') ->
  exists k,
    k < fuel /\
    incremental_fetch_loop k get_page last st = None /\
    incremental_stops_at get_page last (st_offset st + k * page_limit) /\
    st_offset st' = st_offset st + k * page_limit /\
    all_orders st' =
      all_orders st ++
      flat_map (fun off =>
                  retained last (page_of (incremental_request get_page off)))
        (offsets (st_offset st) (S k)).
Proof.
  revert st. induction fuel as [|fuel IH]; intros st; [discriminate|].
  rewrite incremental_fetch_loop_unfold.
  destruct (incremental_request get_page (st_offset st))
    as [[|o orders]|e] eqn:Hreq; [| |discriminate].
  - intros E. injection E as <-. exists 0.
    rewrite Nat.mul_0_l, Nat.add_0_r. repeat split; try lia.
    + exists []. auto.
    + unfold offsets. cbn [seq map flat_map].
      rewrite Nat.mul_0_l, Nat.add_0_r, Hreq. cbn.
      now rewrite app_nil_r.
  - destruct ((List.length (o :: orders) <? page_limit)%nat
              || match retained last (o :: orders) with
                 | [] => true | _ :: _ => false end) eqn:Hstop.
    + intros E. injection E as <-. exists 0.
      rewrite Nat.mul_0_l, Nat.add_0_r. repeat split; try lia.
      * exists (o :: orders). split; [assumption|]. right.
        apply orb_true_iff in Hstop. destruct Hstop as [Hlen | Hret].
        -- left. now apply Nat.ltb_lt in Hlen.
        -- right. now apply retained_nil_test.
      * unfold offsets. cbn [seq map flat_map].
        rewrite Nat.mul_0_l, Nat.add_0_r, Hreq. cbn [page_of].
        cbn [all_orders]. now rewrite app_nil_r.
    + intros Hrec. apply IH in Hrec.
      destruct Hrec as (k & Hk & Hrun & Hstp & Hoff & Hall).
      cbn [st_offset all_orders] in *.
      exists (S k). repeat split.
      * lia.
      * rewrite incremental_fetch_loop_unfold, Hreq, Hstop. exact Hrun.
      * replace (st_offset st + S k * page_limit)
          with (st_offset st + page_limit + k * page_limit) by lia.
        exact Hstp.
      * lia.
      * rewrite Hall, (offsets_S (st_offset st) (S k)). cbn [flat_map].
        rewrite Hreq. cbn [page_of]. now rewrite <- app_assoc.
Qed.

(** A page that meets a stop condition after [k] pages that do not ends the
    incremental loop at request [k + 1]. *)
Lemma incremental_fetch_loop_stops (k : nat) (get_page : source) (last : Z)
  (st : fetch_state) :
  (forall j, j < k ->
     incremental_continues_at get_page last (st_offset st + j * page_limit)) ->
  incremental_stops_at get_page last (st_offset st + k * page_limit) ->
  exists st',
    st_offset st' = st_offset st + k * page_limit /\
    forall fuel, k < fuel ->
      incremental_fetch_loop fuel get_page last st = Some (Ret st').
Proof.
  revert st. induction k as [|k IH]; intros st Hcont Hstop.
  - destruct Hstop as (orders & Hreq & Hwhy).
    rewrite Nat.mul_0_l, Nat.add_0_r in Hreq.
    destruct orders as [|o orders].
    + exists st. split; [lia|]. intros [|fuel] Hf; [lia|].
      now rewrite incremental_fetch_loop_unfold, Hreq.
    + exists {| st_offset := st_offset st;
                all_orders := all_orders st ++ retained last (o :: orders) |}.
      split; [cbn [st_offset]; lia |].
      intros [|fuel] Hf; [lia|].
      rewrite incremental_fetch_loop_unfold, Hreq.
      assert (Hc : (List.length (o :: orders) <? page_limit)%nat
                   || match retained last (o :: orders) with
                      | [] => true | _ :: _ => false end = true).
      { apply orb_true_iff. destruct Hwhy as [Hnil | [Hlen | Hret]].
        - discriminate.
        - left. now apply Nat.ltb_lt.
        - right. now apply retained_nil_test. }
      rewrite Hc. reflexivity.
  - destruct (Hcont 0) as (orders & Hreq & Hlen & Hret); [lia|].
    rewrite Nat.mul_0_l, Nat.add_0_r in Hreq.
    destruct orders as [|o orders]; [now destruct Hret|].
    apply Nat.ltb_ge in Hlen.
    destruct (IH {| st_offset := st_offset st + page_limit;
                    all_orders :=
                      all_orders st ++ retained last (o :: orders) |})
      as (st' & Hoff & Hst').
    + intros j Hj. cbn [st_offset].
      replace (st_offset st + page_limit + j * page_limit)
        with (st_offset st + S j * page_limit) by lia.
      apply Hcont. lia.
    + cbn [st_offset].
      replace (st_offset st + page_limit + k * page_limit)
        with (st_offset st + S k * page_limit) by lia.
      exact Hstop.
    + exists st'. split; [cbn [st_offset] in Hoff; lia |].
      intros [|fuel] Hf; [lia|].
      rewrite incremental_fetch_loop_unfold, Hreq, Hlen.
      destruct (retained last (o :: orders)) as [|r rs] eqn:E; [congruence|].
      cbn [orb]. apply Hst'. lia.
Qed.

Lemma flat_map_offsets {A : Type} (f : nat -> list A) (n : nat) :
  flat_map f (offsets 0 n) = flat_map (fun j => f (j * page_limit)) (seq 0 n).
Proof.
  unfold offsets. rewrite flat_map_concat_map, map_map.
  now rewrite <- flat_map_concat_map.
Qed.

(** Above a watermark that is not negative, the test of line 158 is the
    comparison alone. *)
Lemma is_new_order_iff (last : Z) (o : order) :
  (0 <= last)%Z ->
  is_new_order last o = true <->
  exists n, orderNumber o = Val n /\ (last < n)%Z.
Proof.
  intros Hlast. unfold is_new_order, get. split.
  - destruct (orderNumber o) as [| |n]; try discriminate.
    intros Hn. apply andb_true_iff in Hn. destruct Hn as [_ Hn].
    apply Z.ltb_lt in Hn. eauto.
  - intros (n & -> & Hn). apply andb_true_iff. split.
    + apply negb_true_iff, Z.eqb_neq. lia.
    + now apply Z.ltb_lt.
Qed.

Lemma is_new_order_above (last : Z) (o : order) :
  is_new_order last o = true ->
  exists n, orderNumber o = Val n /\ n <> 0%Z /\ (last < n)%Z.
Proof.
  unfold is_new_order, get. destruct (orderNumber o) as [| |n]; try discriminate.
  intros Hn. apply andb_true_iff in Hn. destruct Hn as [Hz Hn].
  apply negb_true_iff, Z.eqb_neq in Hz. apply Z.ltb_lt in Hn. eauto.
Qed.

(** An exception leaves the incremental loop only when a request raised
    it. *)
Lemma incremental_fetch_loop_raise (fuel : nat) (get_page : source) (last : Z)
  (st : fetch_state) (e : exn) :
  incremental_fetch_loop fuel get_page last st = Some (Raise e) ->
  exists off, incremental_request get_page off = Raise e.
Proof.
  revert st. induction fuel as [|fuel IH]; intros st; [discriminate|].
  rewrite incremental_fetch_loop_unfold.
  destruct (incremental_request get_page (st_offset st))
    as [[|o orders]|e'] eqn:Hreq.
  - discriminate.
  - destruct (_ || _); [discriminate | apply IH].
  - intros E. injection E as ->. eauto.
Qed.

Lemma fetch_body_by_mode (col : list string) (fuel : nat) (get_page : source) :
  fetch_body fuel (Ret col) get_page =
  match fetch_mode_of col with
  | FullFetch => fetched (full_fetch_loop fuel get_page initial_state)
  | IncrementalFetch =>
      match last_order_number_of col with
      | Ret last_order_number =>
          fetched (incremental_fetch_loop fuel get_page last_order_number
                     initial_state)
      | Raise e => Some (Raise e)
      end
  end.
Proof.
  unfold fetch_body, fetch_mode_of, fetched.
  destruct (is_full_fetch col); [reflexivity|].
  destruct (last_order_number_of col); reflexivity.
Qed.

(** On the incremental branch either [int] converts every entry that passes
    [isdigit] and the fetch runs with the largest value as its watermark, or
    it does not and the [ValueError] of line 137 leaves the body. *)
Lemma incremental_body_cases (col : list string) (fuel : nat)
  (get_page : source) :
  fetch_mode_of col = IncrementalFetch ->
  (all_convert col /\
   last_order_number_of col = Ret (lastSeen col) /\
   fetch_body fuel (Ret col) get_page =
   fetched (incremental_fetch_loop fuel get_page (lastSeen col)
              initial_state))
  \/
  (~ all_convert col /\
   last_order_number_of col = Raise ValueError /\
   fetch_body fuel (Ret col) get_page = Some (Raise ValueError)).
Proof.
  intros Hmode. rewrite fetch_body_by_mode, Hmode.
  assert (Hf : is_full_fetch col = false).
  { unfold fetch_mode_of in Hmode. destruct (is_full_fetch col); congruence. }
  destruct (last_order_number_of col) as [w|e] eqn:Hlast.
  - destruct (last_order_number_ret _ _ Hlast) as (Hconv & -> & _).
    left. auto.
  - pose proof (last_order_number_raise _ _ Hlast) as ->.
    right. split; [|auto]. intros Hconv.
    rewrite (last_order_number_converts col Hf Hconv) in Hlast. discriminate.
Qed.

Lemma mode_full_fetch (col : list string) :
  fetch_mode_of col = FullFetch <-> is_full_fetch col = true.
Proof.
  unfold fetch_mode_of. destruct (is_full_fetch col); split; congruence.
Qed.

Lemma mode_incremental (col : list string) :
  fetch_mode_of col = IncrementalFetch <-> is_full_fetch col = false.
Proof.
  unfold fetch_mode_of. destruct (is_full_fetch col); split; congruence.
Qed.

(** ** Fetch-mode selection *)

(** C1, as the claim states it, fails on a column that holds only the text
    0: no entry is a positive integer, and the run is incremental. *)
Lemma zero_column_is_incremental :
  no_positive_integer ["0"] /\
  fetch_mode_of ["0"] = IncrementalFetch /\
  ~ (fetch_mode_of ["0"] = FullFetch <-> no_positive_integer ["0"]).
Proof.
  assert (Hno : no_positive_integer ["0"]).
  { right. intros s [<- | []]. reflexivity. }
  split; [exact Hno | split; [reflexivity |]].
  intros [_ Hback]. specialize (Hback Hno). discriminate.
Qed.

(** C1, amended.  The run takes the full-fetch branch if and only if the
    order-number column below the header is empty or has no entry that
    passes [isdigit], and then performs a full fetch; otherwise it takes the
    incremental branch, and there, when [int] converts every entry that
    passes [isdigit], it performs an incremental fetch whose watermark is
    the largest of their values. *)
Theorem fetch_mode_selection (col : list string) :
  (fetch_mode_of col = FullFetch <->
     (col = [] \/ forall s, In s col -> PyStr.isdigit s = false)) /\
  (fetch_mode_of col = IncrementalFetch <->
     exists s, In s col /\ PyStr.isdigit s = true) /\
  (fetch_mode_of col = FullFetch ->
   forall fuel get_page,
     fetch_body fuel (Ret col) get_page =
     fetched (full_fetch_loop fuel get_page initial_state)) /\
  (fetch_mode_of col = IncrementalFetch -> all_convert col ->
   last_order_number_of col = Ret (lastSeen col) /\
   (exists s, In s col /\ PyStr.isdigit s = true /\
              PyStr.int s = Some (lastSeen col)) /\
   (forall s v, In s col -> PyStr.isdigit s = true -> PyStr.int s = Some v ->
                (v <= lastSeen col)%Z) /\
   forall fuel get_page,
     fetch_body fuel (Ret col) get_page =
     fetched (incremental_fetch_loop fuel get_page (lastSeen col)
                initial_state)).
Proof.
  split; [|split; [|split]].
  - rewrite mode_full_fetch. apply is_full_fetch_spec.
  - rewrite mode_incremental. apply is_full_fetch_false.
  - intros Hmode fuel get_page. now rewrite fetch_body_by_mode, Hmode.
  - intros Hmode Hconv. pose proof (proj1 (mode_incremental col) Hmode) as Hf.
    pose proof (last_order_number_converts col Hf Hconv) as Hlast.
    split; [exact Hlast|]. split; [|split].
    + apply is_full_fetch_false in Hf. destruct Hf as (s & Hs & Hd).
      destruct (Hconv s Hs Hd) as (v & Hv).
      exact (lastSeen_attained col s v Hs Hd Hv).
    + intros s v. apply lastSeen_upper.
    + intros fuel get_page. now rewrite fetch_body_by_mode, Hmode, Hlast.
Qed.

(** ** Incremental filtering *)

Lemma incremental_loop_orders (fuel : nat) (get_page : source) (last : Z)
  (st : fetch_state) :
  incremental_fetch_loop fuel get_page last initial_state = Some (Ret st) ->
  exists k,
    k < fuel /\
    st_offset st = k * page_limit /\
    all_orders st =
      flat_map (fun j => retained last (incremental_page get_page j))
        (seq 0 (S k)).
Proof.
  intros Hloop. apply incremental_fetch_loop_result in Hloop.
  destruct Hloop as (k & Hk & _ & _ & Hoff & Hall).
  exists k. cbn [initial_state st_offset all_orders app] in *.
  repeat split; [assumption | lia |].
  rewrite Hall. apply flat_map_offsets.
Qed.

(** When lines 137-138 have given a watermark and the incremental loop has
    returned: the watermark is the largest of the values of the column's
    entries that pass [isdigit], all of which [int] converts, and the orders
    the loop keeps are those of the pages it fetched whose number is above
    the watermark, and no others. *)
Theorem incremental_filtering (col : list string) (last : Z) (fuel : nat)
  (get_page : source) (st : fetch_state) :
  last_order_number_of col = Ret last ->
  incremental_fetch_loop fuel get_page last initial_state = Some (Ret st) ->
  fetch_mode_of col = IncrementalFetch /\
  all_convert col /\
  (exists s, In s col /\ PyStr.isdigit s = true /\ PyStr.int s = Some last) /\
  (forall s v, In s col -> PyStr.isdigit s = true -> PyStr.int s = Some v ->
               (v <= last)%Z) /\
  exists k,
    st_offset st = k * page_limit /\
    all_orders st =
      flat_map (fun j => retained last (incremental_page get_page j))
        (seq 0 (S k)) /\
    forall o,
      In o (all_orders st) <->
      (exists j, j <= k /\ In o (incremental_page get_page j)) /\
      exists n, orderNumber o = Val n /\ (last < n)%Z.
Proof.
  intros Hlast Hloop.
  destruct (last_order_number_ret _ _ Hlast) as (Hconv & -> & Hf).
  split; [now apply mode_incremental|]. split; [exact Hconv|].
  split; [|split].
  - apply is_full_fetch_false in Hf. destruct Hf as (s & Hs & Hd).
    destruct (Hconv s Hs Hd) as (v & Hv).
    exact (lastSeen_attained col s v Hs Hd Hv).
  - intros s v. apply lastSeen_upper.
  - destruct (incremental_loop_orders _ _ _ _ Hloop) as (k & _ & Hoff & Hall).
    exists k. split; [assumption |]. split; [assumption |].
    intros o. rewrite Hall, in_flat_map. split.
    + intros (j & Hj & Ho). apply in_seq in Hj.
      apply filter_In in Ho. destruct Ho as [Ho Hnew].
      split; [exists j; split; [lia | assumption] |].
      now apply is_new_order_iff in Hnew; [| apply lastSeen_nonneg].
    + intros [(j & Hj & Ho) Hn]. exists j. split; [apply in_seq; lia |].
      apply filter_In. split; [assumption |].
      apply is_new_order_iff; [apply lastSeen_nonneg | assumption].
Qed.

(** C2.  The column that holds the number 5 and the superscript two has a
    valid order number, and 5 is the largest of its numeric values; yet
    [isdigit] passes the superscript, [int] rejects it, and line 137 raises
    [ValueError]: no watermark is computed and the fetch hands on nothing,
    not even an order numbered 7 that the source holds. *)
Theorem superscript_entry_stops_incremental_fetch :
  fetch_mode_of ["5"; "²"] = IncrementalFetch /\
  numeric_values ["5"; "²"] = [5%Z] /\
  last_order_number_of ["5"; "²"] = Raise ValueError /\
  retained 5 [tee_order 5; tee_order 7] = [tee_order 7] /\
  fetch_stage 1 (Ret ["5"; "²"]) (small_source [tee_order 5; tee_order 7])
    = Some [].
Proof.
  repeat split; vm_compute; reflexivity.
Qed.

(** ** Pagination *)

Lemma full_continue_or_stop (get_page : source) (off : nat) :
  full_continues_at get_page off -> full_stops_at get_page off -> False.
Proof.
  intros (orders & Hreq & Hlen) (orders' & Hreq' & Hlen').
  rewrite Hreq in Hreq'. injection Hreq' as <-. lia.
Qed.

Lemma incremental_continue_or_stop (get_page : source) (last : Z) (off : nat) :
  incremental_continues_at get_page last off ->
  incremental_stops_at get_page last off -> False.
Proof.
  intros (orders & Hreq & Hlen & Hret) (orders' & Hreq' & Hwhy).
  rewrite Hreq in Hreq'. injection Hreq' as <-.
  destruct Hwhy as [-> | [Hshort | Hnone]].
  - now apply Hret.
  - lia.
  - now apply Hret.
Qed.

(** C3.  For every source: the full-fetch loop leaves through its [break]
    at request number [k] (counting from 0) exactly when that page is the
    first with fewer than 100 items; the incremental loop leaves through a
    [break] at request number [k] exactly when that page is the first that is
    empty, has fewer than 100 items, or has no order above the watermark.
    Under these conditions the loop does return, with any bound on its
    requests above [k]; before request [k] it is still running. *)
Theorem pagination_termination (get_page : source) (last : Z) (k : nat) :
  (((forall j, j < k -> full_continues_at get_page (j * page_limit)) /\
    full_stops_at get_page (k * page_limit))
   <->
   (full_fetch_loop k get_page initial_state = None /\
    exists st,
      st_offset st = k * page_limit /\
      forall fuel, k < fuel ->
        full_fetch_loop fuel get_page initial_state = Some (Ret st)))
  /\
  (((forall j, j < k ->
       incremental_continues_at get_page last (j * page_limit)) /\
    incremental_stops_at get_page last (k * page_limit))
   <->
   (incremental_fetch_loop k get_page last initial_state = None /\
    exists st,
      st_offset st = k * page_limit /\
      forall fuel, k < fuel ->
        incremental_fetch_loop fuel get_page last initial_state
          = Some (Ret st))).
Proof.
  split.
  - rewrite full_fetch_loop_running. cbn [initial_state st_offset Nat.add].
    split.
    + intros [Hcont Hstop]. split; [exact Hcont |].
      apply (full_fetch_loop_stops k get_page initial_state); assumption.
    + intros [Hcont (st & Hoff & Hret)]. split; [exact Hcont |].
      specialize (Hret (S k) (Nat.lt_succ_diag_r k)).
      apply full_fetch_loop_result in Hret.
      destruct Hret as (k' & Hk' & _ & Hstop & Hoff' & _).
      cbn [initial_state st_offset Nat.add] in *.
      assert (k' = k) as ->; [|exact Hstop].
      destruct (Nat.eq_dec k' k) as [E | Hne]; [exact E | exfalso].
      apply (full_continue_or_stop get_page (k' * page_limit));
        [apply Hcont; lia | exact Hstop].
  - rewrite incremental_fetch_loop_running.
    cbn [initial_state st_offset Nat.add].
    split.
    + intros [Hcont Hstop]. split; [exact Hcont |].
      apply (incremental_fetch_loop_stops k get_page last initial_state);
        assumption.
    + intros [Hcont (st & Hoff & Hret)]. split; [exact Hcont |].
      specialize (Hret (S k) (Nat.lt_succ_diag_r k)).
      apply incremental_fetch_loop_result in Hret.
      destruct Hret as (k' & Hk' & _ & Hstop & Hoff' & _).
      cbn [initial_state st_offset Nat.add] in *.
      assert (k' = k) as ->; [|exact Hstop].
      destruct (Nat.eq_dec k' k) as [E | Hne]; [exact E | exfalso].
      apply (incremental_continue_or_stop get_page last (k' * page_limit));
        [apply Hcont; lia | exact Hstop].
Qed.

(** ** Orders without a number *)

Lemma fetch_stage_incremental (col : list string) (fuel : nat)
  (get_page : source) (new_orders_to_add : list order) :
  fetch_mode_of col = IncrementalFetch ->
  fetch_stage fuel (Ret col) get_page = Some new_orders_to_add ->
  new_orders_to_add = [] \/
  exists st,
    incremental_fetch_loop fuel get_page (lastSeen col) initial_state
      = Some (Ret st) /\
    new_orders_to_add = all_orders st.
Proof.
  intros Hmode. unfold fetch_stage.
  destruct (incremental_body_cases col fuel get_page Hmode)
    as [(_ & _ & ->) | (_ & _ & ->)];
    [|cbn; intros E; injection E as <-; now left].
  unfold fetched.
  destruct (incremental_fetch_loop fuel get_page (lastSeen col) initial_state)
    as [[st|e]|]; cbn; intros E; try discriminate; injection E as <-.
  - right. eauto.
  - now left.
Qed.

(** C10.  An order whose [orderNumber] is absent, null or 0 fails the test of
    the incremental filter, whatever the watermark; it is in nothing the
    filter keeps of a page, in nothing the incremental loop collects, and in
    nothing an incremental fetch hands on.  The filter raises nothing: an
    exception leaves the loop only when a request raised it. *)
Theorem unnumbered_orders_are_skipped (last : Z) (o : order) :
  orderNumber o = Absent \/ orderNumber o = Null \/ orderNumber o = Val 0%Z ->
  is_new_order last o = false /\
  (forall orders, ~ In o (retained last orders)) /\
  (forall fuel get_page st,
     incremental_fetch_loop fuel get_page last initial_state = Some (Ret st) ->
     ~ In o (all_orders st)) /\
  (forall fuel get_page st e,
     incremental_fetch_loop fuel get_page last st = Some (Raise e) ->
     exists off, incremental_request get_page off = Raise e) /\
  (forall col fuel get_page new_orders_to_add,
     fetch_mode_of col = IncrementalFetch ->
     fetch_stage fuel (Ret col) get_page = Some new_orders_to_add ->
     ~ In o new_orders_to_add).
Proof.
  intros Hnum.
  assert (Htest : forall w, is_new_order w o = false).
  { intros w. unfold is_new_order, get.
    destruct Hnum as [-> | [-> | ->]]; reflexivity. }
  assert (Hkeep : forall w orders, ~ In o (retained w orders)).
  { intros w orders Hin. apply filter_In in Hin. destruct Hin as [_ Hin].
    rewrite Htest in Hin. discriminate. }
  assert (Hloop : forall w fuel get_page st,
            incremental_fetch_loop fuel get_page w initial_state
              = Some (Ret st) -> ~ In o (all_orders st)).
  { intros w fuel get_page st Hst Hin.
    apply incremental_loop_orders in Hst.
    destruct Hst as (k & _ & _ & Hall). rewrite Hall in Hin.
    apply in_flat_map in Hin. destruct Hin as (j & _ & Hin).
    exact (Hkeep _ _ Hin). }
  split; [apply Htest |]. split; [apply Hkeep |]. split; [apply Hloop |].
  split.
  - intros fuel get_page st e. apply incremental_fetch_loop_raise.
  - intros col fuel get_page new Hmode Hfetch Hin.
    destruct (fetch_stage_incremental _ _ _ _ Hmode Hfetch)
      as [-> | (st & Hst & ->)]; [destruct Hin |].
    exact (Hloop _ _ _ _ Hst Hin).
Qed.

Lemma unnumbered_orders_are_skipped_witness :
  is_new_order 5 unnumbered_order = false /\
  ~ In unnumbered_order
      (retained 5 [numbered_order 7; unnumbered_order; numbered_order 3]).
Proof.
  destruct (unnumbered_orders_are_skipped 5 unnumbered_order) as (H1 & H2 & _).
  - right. left. reflexivity.
  - split; [exact H1 | apply H2].
Defined.

(** ** Date normalizer *)

Section DateNormalizerFacts.
Context `{DateLib}.

Lemma try_formats_none (s : string) (fmts : list string) :
  (forall fmt, In fmt fmts -> strptime s fmt = None) ->
  try_formats s fmts = Ret None.
Proof.
  induction fmts as [|fmt rest IH]; intros Hall; [reflexivity|].
  simpl. rewrite (Hall fmt (or_introl eq_refl)).
  apply IH. intros f Hf. apply Hall. now right.
Qed.

Lemma try_formats_skip (s : string) (before fmts : list string) :
  (forall fmt, In fmt before -> strptime s fmt = None) ->
  try_formats s (before ++ fmts) = try_formats s fmts.
Proof.
  induction before as [|fmt rest IH]; intros Hall; [reflexivity|].
  simpl. rewrite (Hall fmt (or_introl eq_refl)).
  apply IH. intros f Hf. apply Hall. now right.
Qed.

Lemma try_formats_some (s : string) (fmts : list string) (r : datetime) :
  try_formats s fmts = Ret (Some r) ->
  exists fmt dt_obj,
    In fmt fmts /\ strptime s fmt = Some dt_obj /\
    astimezone_lagos (as_utc dt_obj) = Ret r.
Proof.
  induction fmts as [|fmt rest IH]; [discriminate|]. simpl.
  destruct (strptime s fmt) as [dt_obj|] eqn:Hparse.
  - fold (as_utc dt_obj).
    destruct (astimezone_lagos (as_utc dt_obj)) as [dt|[]] eqn:Hconv;
      try discriminate.
    + intros E. injection E as <-. exists fmt, dt_obj. auto.
    + intros Hrest. destruct (IH Hrest) as (f & d & Hin & Hp & Hc).
      exists f, d. auto.
  - intros Hrest. destruct (IH Hrest) as (f & d & Hin & Hp & Hc).
    exists f, d. auto.
Qed.

(** C9.  The date normalizer returns null, and raises nothing, when the raw
    value is null or empty or fits none of the formats; when a format fits,
    a naive value is taken as UTC and the value is converted to the
    Africa/Lagos zone, and a value the normalizer returns was obtained that
    way; on a null result the row's [create_date] is the raw value itself. *)
Theorem date_normalization (raw : option string) :
  (raw = None \/ raw = Some EmptyString \/
   (exists s, raw = Some s /\
              forall fmt, In fmt ECWID_DATE_FORMATS -> strptime s fmt = None) ->
   parse_and_standardize_date raw = Ret None) /\
  (forall s before fmt after dt_obj r,
     raw = Some s -> s <> EmptyString ->
     ECWID_DATE_FORMATS = before ++ fmt :: after ->
     (forall f, In f before -> strptime s f = None) ->
     strptime s fmt = Some dt_obj ->
     astimezone_lagos (as_utc dt_obj) = Ret r ->
     parse_and_standardize_date raw = Ret (Some r)) /\
  (forall r,
     parse_and_standardize_date raw = Ret (Some r) ->
     exists s fmt dt_obj,
       raw = Some s /\ In fmt ECWID_DATE_FORMATS /\
       strptime s fmt = Some dt_obj /\
       astimezone_lagos (as_utc dt_obj) = Ret r) /\
  (parse_and_standardize_date raw = Ret None ->
   formatted_create_date raw = Ret raw).
Proof.
  split; [|split; [|split]].
  - intros [-> | [-> | (s & -> & Hall)]]; try reflexivity.
    unfold parse_and_standardize_date. destruct s; [reflexivity|].
    now apply try_formats_none.
  - intros s before fmt after dt_obj r -> Hs Hfmts Hbefore Hparse Hconv.
    unfold parse_and_standardize_date. destruct s as [|c s]; [congruence|].
    rewrite Hfmts, try_formats_skip by assumption.
    simpl. rewrite Hparse. fold (as_utc dt_obj). now rewrite Hconv.
  - intros r. unfold parse_and_standardize_date.
    destruct raw as [[|c s]|]; try discriminate.
    intros Hr. apply try_formats_some in Hr.
    destruct Hr as (fmt & dt_obj & Hin & Hp & Hc).
    exists (String c s), fmt, dt_obj. auto.
  - intros Hnone. unfold formatted_create_date. now rewrite Hnone.
Qed.

End DateNormalizerFacts.

Lemma date_normalization_witness :
  @parse_and_standardize_date RecordedDates.recorded (Some "not a date")
    = Ret None /\
  @parse_and_standardize_date RecordedDates.recorded
    (Some "2025-04-01 10:00:00")
    = Ret (Some (RecordedDates.aware "2025-04-01 11:00:00" 60)) /\
  @formatted_create_date RecordedDates.recorded (Some "not a date")
    = Ret (Some "not a date").
Proof.
  split; [|split].
  - apply (@date_normalization RecordedDates.recorded (Some "not a date")).
    right. right. exists "not a date". split; [reflexivity|].
    intros fmt [<- | [<- | [<- | []]]]; reflexivity.
  - apply (proj1 (proj2 (@date_normalization RecordedDates.recorded
                           (Some "2025-04-01 10:00:00"))))
      with (s := "2025-04-01 10:00:00")
           (before := ["%Y-%m-%d %H:%M:%S %z"])
           (fmt := "%Y-%m-%d %H:%M:%S")
           (after := ["%Y-%m-%d"])
           (dt_obj := RecordedDates.naive "2025-04-01 10:00:00");
      try reflexivity.
    + discriminate.
    + intros f [<- | []]. reflexivity.
  - apply (@date_normalization RecordedDates.recorded (Some "not a date")).
    reflexivity.
Defined.

(** ** Order flattener *)

Lemma assign_option_color (row : flat_row) (opt : selected_option) :
  color (assign_option row opt) =
  if String.eqb (option_key opt) "color" then get (opt_value opt)
  else color row.
Proof.
  unfold assign_option. fold (option_key opt).
  destruct (String.eqb (option_key opt) "color"); [reflexivity|].
  destruct (String.eqb (option_key opt) "size"); [reflexivity|].
  destruct (String.eqb (option_key opt) "category"); reflexivity.
Qed.

Lemma assign_option_size (row : flat_row) (opt : selected_option) :
  size (assign_option row opt) =
  if String.eqb (option_key opt) "size" then get (opt_value opt)
  else size row.
Proof.
  unfold assign_option. fold (option_key opt).
  destruct (String.eqb (option_key opt) "color") eqn:Ec.
  - apply String.eqb_eq in Ec. rewrite Ec. reflexivity.
  - destruct (String.eqb (option_key opt) "size"); [reflexivity|].
    destruct (String.eqb (option_key opt) "category"); reflexivity.
Qed.

Lemma assign_option_category (row : flat_row) (opt : selected_option) :
  category (assign_option row opt) =
  if String.eqb (option_key opt) "category" then get (opt_value opt)
  else category row.
Proof.
  unfold assign_option. fold (option_key opt).
  destruct (String.eqb (option_key opt) "color") eqn:Ec.
  - apply String.eqb_eq in Ec. rewrite Ec. reflexivity.
  - destruct (String.eqb (option_key opt) "size") eqn:Es.
    + apply String.eqb_eq in Es. rewrite Es. reflexivity.
    + destruct (String.eqb (option_key opt) "category"); reflexivity.
Qed.

Lemma assign_option_shared (row : flat_row) (opt : selected_option) :
  create_date (assign_option row opt) = create_date row /\
  order_number (assign_option row opt) = order_number row /\
  product_name (assign_option row opt) = product_name row.
Proof.
  unfold assign_option.
  destruct (String.eqb _ "color"); [auto|].
  destruct (String.eqb _ "size"); [auto|].
  destruct (String.eqb _ "category"); auto.
Qed.

Lemma assign_option_other (row : flat_row) (opt : selected_option) :
  is_row_key (option_key opt) = false -> assign_option row opt = row.
Proof.
  unfold is_row_key, assign_option. fold (option_key opt). intros Hk.
  apply orb_false_iff in Hk. destruct Hk as [Hk Hcat].
  apply orb_false_iff in Hk. destruct Hk as [Hcol Hsize].
  now rewrite Hcol, Hsize, Hcat.
Qed.

(** After the loop over the options, a column holds the value of the last
    option filed under its key, or what it held before. *)
Lemma fold_assign_last (proj : flat_row -> option string) (key : string)
  (opts : list selected_option) (row : flat_row) :
  (forall r opt,
     proj (assign_option r opt) =
     if String.eqb (option_key opt) key then get (opt_value opt) else proj r) ->
  proj (fold_left assign_option opts row) =
  match rev (filter (fun opt => String.eqb (option_key opt) key) opts) with
  | [] => proj row
  | opt :: _ => get (opt_value opt)
  end.
Proof.
  intros Hstep. induction opts as [|opt opts IH] using rev_ind; [reflexivity|].
  rewrite fold_left_app, filter_app, rev_app_distr. cbn [fold_left filter].
  rewrite Hstep.
  destruct (String.eqb (option_key opt) key); [reflexivity | exact IH].
Qed.

Lemma fold_assign_shared (opts : list selected_option) (row : flat_row) :
  create_date (fold_left assign_option opts row) = create_date row /\
  order_number (fold_left assign_option opts row) = order_number row /\
  product_name (fold_left assign_option opts row) = product_name row.
Proof.
  revert row. induction opts as [|opt opts IH]; intros row; [auto|].
  cbn [fold_left]. destruct (IH (assign_option row opt)) as (Hd & Hn & Hp).
  destruct (assign_option_shared row opt) as (Hd' & Hn' & Hp').
  repeat split; congruence.
Qed.

Lemma fold_assign_row_keys (opts : list selected_option) (row : flat_row) :
  fold_left assign_option opts row =
  fold_left assign_option
    (filter (fun opt => is_row_key (option_key opt)) opts) row.
Proof.
  revert row. induction opts as [|opt opts IH]; intros row; [reflexivity|].
  cbn [fold_left filter].
  destruct (is_row_key (option_key opt)) eqn:Hk.
  - cbn [fold_left]. apply IH.
  - rewrite (assign_option_other row opt Hk). apply IH.
Qed.

(** C6.  In the row of a line item, each of color, size and category is the
    value of the last of the item's options whose normalized name is that
    key, or null when there is none; the options filed under any other key
    (designer_category and thickness among them) change nothing in the
    row. *)
Theorem option_mapping (date : option string) (number : option Z)
  (item : line_item) :
  let opts := get_default (selectedOptions item) [] in
  let row := item_row date number item in
  color row = last_matching_value "color" opts /\
  size row = last_matching_value "size" opts /\
  category row = last_matching_value "category" opts /\
  row = item_row date number
          {| item_name := item_name item;
             selectedOptions :=
               Some (filter (fun opt => is_row_key (option_key opt)) opts) |} /\
  is_row_key "designer_category" = false /\
  is_row_key "thickness" = false /\
  create_date row = date /\
  order_number row = number /\
  product_name row = get (item_name item).
Proof.
  intros opts row. unfold row, item_row. fold opts.
  unfold last_matching_value.
  split; [|split; [|split; [|split; [|split; [|split]]]]].
  - now rewrite (fold_assign_last color "color") by apply assign_option_color.
  - now rewrite (fold_assign_last size "size") by apply assign_option_size.
  - now rewrite (fold_assign_last category "category")
      by apply assign_option_category.
  - cbn [selectedOptions item_name get_default]. apply fold_assign_row_keys.
  - reflexivity.
  - reflexivity.
  - apply fold_assign_shared.
Qed.

Section FlattenerFacts.
Context `{DateLib}.

(** For an order whose creation date the date normalizer has turned into
    [date]: when its items are absent, null or empty, flattening gives
    exactly one row, with null product_name, category, size and color; when
    it has N >= 1 items, flattening gives exactly N rows, each with the
    order's create_date and order_number. *)
Theorem flattening_cardinality (o : order) (date : option string) :
  formatted_create_date (get (createDate o)) = Ret date ->
  (get (items o) = None \/ get (items o) = Some [] ->
   flatten_order o =
   Ret [ {| create_date := date; order_number := get (orderNumber o);
            product_name := None; category := None;
            size := None; color := None |} ]) /\
  (forall order_items,
     get (items o) = Some order_items -> order_items <> [] ->
     exists rows,
       flatten_order o = Ret rows /\
       List.length rows = List.length order_items /\
       forall r, In r rows ->
         create_date r = date /\ order_number r = get (orderNumber o)).
Proof.
  intros Hdate. unfold flatten_order. rewrite Hdate. cbn [bind]. split.
  - intros [-> | ->]; reflexivity.
  - intros order_items -> Hne.
    destruct order_items as [|item rest]; [congruence|].
    eexists. split; [reflexivity|]. split; [apply length_map|].
    intros r Hr. apply in_map_iff in Hr. destruct Hr as (it & <- & _).
    unfold item_row.
    destruct (fold_assign_shared (get_default (selectedOptions it) [])
                {| create_date := date; order_number := get (orderNumber o);
                   product_name := get (item_name it);
                   category := None; size := None; color := None |})
      as (Hd & Hn & _).
    auto.
Qed.

(** A fetch that hands on nothing leaves the worksheet as it is and writes a
    log row that counts no record. *)
Lemma after_fetch_nothing (env : environment) (s : spreadsheet) :
  after_fetch env s [] =
  Finished {| orders_worksheet := orders_worksheet s;
              log_worksheet := log_stage env 0 (log_worksheet s) |}.
Proof. reflexivity. Qed.

(** C8.  When an exception leaves the body of the fetch stage, the run goes
    on to its last line: nothing is handed on as new orders, the orders
    worksheet is left as it is, and the log stage runs (and, unless its own
    write fails, adds the row that counts no record). *)
Theorem fetch_failure_degrades (fuel : nat) (env : environment)
  (s : spreadsheet) (e : exn) :
  fetch_body fuel (existing_order_numbers env s) (requests_get env)
    = Some (Raise e) ->
  fetch_stage fuel (existing_order_numbers env s) (requests_get env)
    = Some [] /\
  sync fuel env s =
    Some (Finished {| orders_worksheet := orders_worksheet s;
                      log_worksheet := log_stage env 0 (log_worksheet s) |}) /\
  (append_row_error env = None ->
   log_stage env 0 (log_worksheet s) =
   log_worksheet s ++ [log_entry_flattened env 0]).
Proof.
  intros Hraise.
  assert (Hfetch : fetch_stage fuel (existing_order_numbers env s)
                     (requests_get env) = Some []).
  { unfold fetch_stage. now rewrite Hraise. }
  split; [exact Hfetch |]. split.
  - unfold sync. rewrite Hfetch. cbn [option_map].
    now rewrite after_fetch_nothing.
  - intros Hlog. unfold log_stage. now rewrite Hlog.
Qed.

End FlattenerFacts.

(** ** Row sanitizer and sorter *)

Lemma insert_sorted_perm (r : flat_row) (l : list flat_row) :
  Permutation (r :: l) (insert_sorted r l).
Proof.
  induction l as [|x l IH]; simpl; [reflexivity|].
  destruct (numeric_leb _ _); [reflexivity|].
  rewrite perm_swap. now apply perm_skip.
Qed.

Lemma sort_values_perm (df : list flat_row) : Permutation df (sort_values df).
Proof.
  induction df as [|r df IH]; simpl; [reflexivity|].
  rewrite <- insert_sorted_perm. now apply perm_skip.
Qed.

Lemma clean_row_order_number (r : flat_row) :
  order_number (clean_row ID_COLUMNS NUMERIC_COLUMNS r) =
  match to_numeric (order_number r) with
  | NaN => None
  | Num z => Some z
  end.
Proof. reflexivity. Qed.

(** ** Two runs in a row *)

Lemma incremental_fetch_loop_mono (fuel fuel' : nat) (get_page : source)
  (last : Z) (st : fetch_state) (r : py fetch_state) :
  incremental_fetch_loop fuel get_page last st = Some r ->
  fuel <= fuel' ->
  incremental_fetch_loop fuel' get_page last st = Some r.
Proof.
  revert fuel' st. induction fuel as [|fuel IH]; intros fuel' st;
    [discriminate|].
  intros Hr Hle. destruct fuel' as [|fuel']; [lia|].
  rewrite incremental_fetch_loop_unfold in *.
  destruct (incremental_request get_page (st_offset st)) as [[|o orders]|e];
    try exact Hr.
  destruct (_ || _); [exact Hr|]. apply IH; [exact Hr | lia].
Qed.

Lemma full_fetch_loop_mono (fuel fuel' : nat) (get_page : source)
  (st : fetch_state) (r : py fetch_state) :
  full_fetch_loop fuel get_page st = Some r ->
  fuel <= fuel' ->
  full_fetch_loop fuel' get_page st = Some r.
Proof.
  revert fuel' st. induction fuel as [|fuel IH]; intros fuel' st;
    [discriminate|].
  intros Hr Hle. destruct fuel' as [|fuel']; [lia|].
  rewrite full_fetch_loop_unfold in *.
  destruct (full_request get_page (st_offset st)) as [orders|e];
    try exact Hr.
  destruct (_ <? _)%nat; [exact Hr|]. apply IH; [exact Hr | lia].
Qed.

(** A fetch stage that has handed on its orders within [fuel] requests hands
    on the same orders when it may make more. *)
Lemma fetch_stage_mono (fuel fuel' : nat) (col : py (list string))
  (get_page : source) (new_orders_to_add : list order) :
  fetch_stage fuel col get_page = Some new_orders_to_add ->
  fuel <= fuel' ->
  fetch_stage fuel' col get_page = Some new_orders_to_add.
Proof.
  unfold fetch_stage, fetch_body. intros Hnew Hle.
  destruct col as [c|e]; [|exact Hnew].
  destruct (is_full_fetch c).
  - destruct (full_fetch_loop fuel get_page initial_state) as [r|] eqn:Hloop;
      [|discriminate].
    now rewrite (full_fetch_loop_mono _ _ _ _ _ Hloop Hle).
  - destruct (last_order_number_of c) as [w|e]; [|exact Hnew].
    destruct (incremental_fetch_loop fuel get_page w initial_state) as [r|]
      eqn:Hloop; [|discriminate].
    now rewrite (incremental_fetch_loop_mono _ _ _ _ _ _ Hloop Hle).
Qed.

(** Without a request the fetch stage hands on nothing. *)
Lemma fetch_stage_no_request (col : list string) (get_page : source)
  (new_orders_to_add : list order) :
  fetch_stage 0 (Ret col) get_page = Some new_orders_to_add ->
  new_orders_to_add = [].
Proof.
  unfold fetch_stage, fetch_body.
  destruct (is_full_fetch col); [discriminate|].
  destruct (last_order_number_of col); [discriminate|].
  cbn. intros E. now injection E.
Qed.

Lemma order_number_column_below_header (ws : worksheet) (df : list flat_row) :
  ws <> [] ->
  tl (col_values (append_rows ws (map row_values df)) 2) =
  tl (col_values ws 2) ++ map order_number_text df.
Proof.
  intros Hne. unfold append_rows, col_values.
  rewrite map_app, map_map.
  destruct ws as [|h t]; [congruence|]. reflexivity.
Qed.

Lemma write_stage_appends (env : environment) (df : list flat_row)
  (ws ws' : worksheet) :
  write_stage env df ws = Ret ws' -> ws' = ws ++ map row_values df.
Proof.
  unfold write_stage, append_rows. destruct df as [|r df].
  - intros E. injection E as <-. now rewrite app_nil_r.
  - destruct (append_rows_error env); [discriminate|].
    intros E. now injection E as <-.
Qed.

Lemma written_number_in_column (col : list string) (df : list flat_row)
  (r : flat_row) (n : Z) :
  In r df -> order_number r = Some n ->
  In (PyStr.str n) (col ++ map order_number_text df).
Proof.
  intros Hin Hn. apply in_or_app. right. apply in_map_iff. exists r.
  split; [|exact Hin]. unfold order_number_text. now rewrite Hn.
Qed.

(** A number the column holds in the form [str] writes is at or below the
    watermark, when [int] converts the column's entries. *)
Lemma known_number_below_watermark (col : list string) (n : Z) :
  all_convert col -> In (PyStr.str n) col -> (0 <= n)%Z ->
  (n <= lastSeen col)%Z.
Proof.
  intros Hconv Hin Hpos.
  destruct (Hconv _ Hin (isdigit_str n Hpos)) as (v & Hv).
  pose proof (int_str_some n v Hpos Hv) as Hvn. subst v.
  exact (lastSeen_upper col _ n Hin (isdigit_str n Hpos) Hv).
Qed.

Lemma lastSeen_app (col more : list string) :
  (lastSeen col <= lastSeen (col ++ more))%Z.
Proof.
  unfold lastSeen, numeric_values. rewrite flat_map_app.
  induction (flat_map _ col) as [|z l IH]; cbn [app fold_right]; [|lia].
  induction (flat_map _ more); cbn [fold_right]; lia.
Qed.

Lemma is_full_fetch_app (col more : list string) :
  is_full_fetch col = false -> is_full_fetch (col ++ more) = false.
Proof.
  rewrite !is_full_fetch_false. intros (s & Hs & Hd).
  exists s. split; [apply in_or_app; now left | exact Hd].
Qed.

(** An incremental fetch hands on nothing when every order of its first page
    that is above the watermark has a number at or below one the column
    holds as [str] writes it. *)
Lemma first_page_known (col : list string) (get_page : source) (fuel : nat) :
  fetch_mode_of col = IncrementalFetch ->
  (forall orders o m,
     incremental_request get_page 0 = Ret orders ->
     In o orders -> orderNumber o = Val m -> (lastSeen col < m)%Z ->
     exists n, In (PyStr.str n) col /\ (0 <= n)%Z /\ (m <= n)%Z) ->
  fetch_stage (S fuel) (Ret col) get_page = Some [].
Proof.
  intros Hmode Hknown. unfold fetch_stage.
  destruct (incremental_body_cases col (S fuel) get_page Hmode)
    as [(Hconv & _ & ->) | (_ & _ & ->)]; [|reflexivity].
  unfold fetched. rewrite incremental_fetch_loop_unfold.
  cbn [initial_state st_offset all_orders].
  destruct (incremental_request get_page 0) as [[|o orders]|e] eqn:Hreq;
    [reflexivity | | reflexivity].
  assert (Hnone : retained (lastSeen col) (o :: orders) = []).
  { destruct (retained _ _) as [|x rest] eqn:Hret; [reflexivity | exfalso].
    assert (Hx : In x (retained (lastSeen col) (o :: orders)))
      by (rewrite Hret; now left).
    apply filter_In in Hx. destruct Hx as [Hx Hnew].
    apply is_new_order_above in Hnew. destruct Hnew as (m & Hm & _ & Habove).
    destruct (Hknown _ x m eq_refl Hx Hm Habove) as (n & Hin & Hpos & Hle).
    pose proof (known_number_below_watermark col n Hconv Hin Hpos). lia. }
  rewrite Hnone, orb_true_r. reflexivity.
Qed.

Section TwoRuns.
Context `{DateLib}.

Lemma flatten_order_row (o : order) (rows : list flat_row) :
  flatten_order o = Ret rows ->
  exists r, In r rows /\ order_number r = get (orderNumber o).
Proof.
  unfold flatten_order.
  destruct (formatted_create_date (get (createDate o))) as [date|e];
    [cbn [bind] | discriminate].
  destruct (get (items o)) as [[|item rest]|].
  - intros E. injection E as <-. eexists. split; [now left | reflexivity].
  - intros E. injection E as <-.
    exists (item_row date (get (orderNumber o)) item).
    split; [now left |]. apply fold_assign_shared.
  - intros E. injection E as <-. eexists. split; [now left | reflexivity].
Qed.

Lemma flatten_orders_row (orders : list order) (rows : list flat_row)
  (o : order) :
  flatten_orders orders = Ret rows -> In o orders ->
  exists r, In r rows /\ order_number r = get (orderNumber o).
Proof.
  revert rows. induction orders as [|x orders IH]; intros rows;
    [intros _ []|].
  cbn [flatten_orders].
  destruct (flatten_order x) as [rx|e] eqn:Hx; [cbn [bind] | discriminate].
  destruct (flatten_orders orders) as [more|e]; [cbn [bind] | discriminate].
  intros E [<- | Hin]; injection E as <-.
  - destruct (flatten_order_row _ _ Hx) as (r & Hr & Hn).
    exists r. split; [apply in_or_app; now left | exact Hn].
  - destruct (IH more eq_refl Hin) as (r & Hr & Hn).
    exists r. split; [apply in_or_app; now right | exact Hn].
Qed.

Lemma prepare_rows_row (orders : list order) (df : list flat_row) (o : order) :
  prepare_rows orders = Ret df -> In o orders ->
  exists r, In r df /\ order_number r = get (orderNumber o).
Proof.
  unfold prepare_rows.
  destruct (flatten_orders orders) as [rows|e] eqn:Hrows;
    [cbn [bind] | discriminate].
  intros E Hin. injection E as <-.
  destruct (flatten_orders_row _ _ _ Hrows Hin) as (r & Hr & Hn).
  exists (clean_row ID_COLUMNS NUMERIC_COLUMNS r). split.
  - apply (Permutation_in _ (sort_values_perm _)).
    unfold clean_dataframe_for_gspread. now apply in_map.
  - rewrite clean_row_order_number, <- Hn.
    destruct (order_number r); reflexivity.
Qed.

Lemma prepare_rows_nonempty (orders : list order) (df : list flat_row) :
  prepare_rows orders = Ret df -> orders <> [] -> df <> [].
Proof.
  intros Hdf Hne E. subst df.
  destruct orders as [|o orders]; [congruence|].
  destruct (prepare_rows_row _ _ o Hdf (or_introl eq_refl)) as (r & [] & _).
Qed.

(** The number of a fetched order is in the column the next run reads. *)
Lemma fetched_number_in_column (col : list string) (orders : list order)
  (df : list flat_row) (o : order) (n : Z) :
  prepare_rows orders = Ret df -> In o orders -> orderNumber o = Val n ->
  In (PyStr.str n) (col ++ map order_number_text df).
Proof.
  intros Hdf Ho Hn.
  destruct (prepare_rows_row _ _ _ Hdf Ho) as (r & Hr & Hnum).
  rewrite Hn in Hnum. cbn [get] in Hnum.
  exact (written_number_in_column col df r n Hr Hnum).
Qed.

(** C4, amended.  Let the orders worksheet hold at least its header row, and
    let a first run read the order-number column, fetch orders whose numbers
    are below 2^53 in size (the numbers the coercion of the sanitizer holds
    exactly) and reach its last line.  A second run against the same source,
    allowed at least as many requests, hands on no order from its fetch,
    leaves the orders worksheet as the first run left it, and writes a log
    row that counts no record, provided that, when the first run was a full
    fetch that handed on at least one order, one of those orders has a
    number that is not negative, and every order with a positive number on
    the first page of the listing by ascending number is numbered at or
    below one of them.  After an incremental first run nothing more is
    asked. *)
Theorem second_run_idempotence (fuel fuel' : nat) (env env2 : environment)
  (s s1 : spreadsheet) (col : list string) (new_orders_to_add : list order) :
  orders_worksheet s <> [] ->
  existing_order_numbers env s = Ret col ->
  fetch_stage fuel (Ret col) (requests_get env) = Some new_orders_to_add ->
  sync fuel env s = Some (Finished s1) ->
  requests_get env2 = requests_get env ->
  fuel <= fuel' ->
  (forall o n,
     In o new_orders_to_add -> orderNumber o = Val n ->
     (Z.abs n < 2 ^ 53)%Z) ->
  (fetch_mode_of col = FullFetch -> new_orders_to_add <> [] ->
   (exists o n,
      In o new_orders_to_add /\ orderNumber o = Val n /\ (0 <= n)%Z) /\
   (forall o m,
      In o (incremental_page (requests_get env) 0) ->
      orderNumber o = Val m -> (0 < m)%Z ->
      exists o' n,
        In o' new_orders_to_add /\ orderNumber o' = Val n /\ (m <= n)%Z)) ->
  fetch_stage fuel' (existing_order_numbers env2 s1) (requests_get env2)
    = Some [] /\
  sync fuel' env2 s1 =
    Some (Finished {| orders_worksheet := orders_worksheet s1;
                      log_worksheet := log_stage env2 0 (log_worksheet s1) |}).
Proof.
  intros Hhead Hread Hfetch Hrun Hsame Hfuel _ Hfull.
  assert (Hgoal : fetch_stage fuel' (existing_order_numbers env2 s1)
                    (requests_get env2) = Some []);
    [| split; [exact Hgoal |];
       unfold sync; rewrite Hgoal; cbn [option_map];
       now rewrite after_fetch_nothing].
  unfold sync in Hrun. rewrite Hread, Hfetch in Hrun.
  cbn [option_map] in Hrun. injection Hrun as Hrun. unfold after_fetch in Hrun.
  destruct (prepare_rows new_orders_to_add) as [df|e] eqn:Hdf; [|discriminate].
  destruct (write_stage env df (orders_worksheet s)) as [ws1|e] eqn:Hw;
    [|discriminate].
  injection Hrun as <-. apply write_stage_appends in Hw.
  unfold existing_order_numbers in Hread |- *. cbn [orders_worksheet].
  destruct (col_values_error env2) as [e|]; [reflexivity|].
  destruct (col_values_error env); [discriminate|]. injection Hread as Hcol.
  change (index "order_number" fieldnames_flattened + 1) with 2 in *.
  rewrite Hsame, Hw.
  change (orders_worksheet s ++ map row_values df)
    with (append_rows (orders_worksheet s) (map row_values df)).
  rewrite (order_number_column_below_header _ df Hhead), Hcol.
  destruct new_orders_to_add as [|o0 rest] eqn:Hnew.
  - cbn in Hdf. injection Hdf as <-. cbn [map]. rewrite app_nil_r.
    exact (fetch_stage_mono _ _ _ _ _ Hfetch Hfuel).
  - rewrite <- Hnew in *.
    assert (Hne : new_orders_to_add <> []) by (rewrite Hnew; discriminate).
    destruct fuel as [|fuel];
      [now apply fetch_stage_no_request in Hfetch |].
    destruct fuel' as [|fuel']; [lia|].
    pose proof (lastSeen_nonneg (col ++ map order_number_text df)) as Hpos1.
    destruct (fetch_mode_of col) eqn:Hmode.
    + destruct (Hfull eq_refl Hne) as ((o & n & Ho & Hn & Hpos) & Hpage).
      apply first_page_known.
      * apply mode_incremental, is_full_fetch_false. exists (PyStr.str n).
        split; [exact (fetched_number_in_column col _ _ o n Hdf Ho Hn)
               | exact (isdigit_str n Hpos)].
      * intros orders x m Hreq Hx Hm Habove.
        destruct (Hpage x m) as (o' & n' & Ho' & Hn' & Hle);
          [unfold incremental_page; rewrite Nat.mul_0_l, Hreq; exact Hx
          | exact Hm | lia |].
        exists n'.
        split; [exact (fetched_number_in_column col _ _ o' n' Hdf Ho' Hn')|].
        lia.
    + destruct (fetch_stage_incremental _ _ _ _ Hmode Hfetch)
        as [E | (st & Hloop & Hall)]; [congruence|].
      apply first_page_known.
      * now apply mode_incremental, is_full_fetch_app, mode_incremental.
      * intros orders x m Hreq Hx Hm Habove.
        pose proof (lastSeen_app col (map order_number_text df)) as Hgrow.
        pose proof (lastSeen_nonneg col) as Hpos.
        assert (Hkept : In x new_orders_to_add).
        { rewrite Hall. apply incremental_loop_orders in Hloop.
          destruct Hloop as (k & _ & _ & Hk). rewrite Hk.
          apply in_flat_map. exists 0. split; [apply in_seq; lia |].
          unfold incremental_page. rewrite Nat.mul_0_l, Hreq. cbn [page_of].
          apply filter_In. split; [exact Hx |].
          apply is_new_order_iff; [exact Hpos |].
          exists m. split; [exact Hm | lia]. }
        exists m.
        split; [exact (fetched_number_in_column col _ _ x m Hdf Hkept Hm)|].
        lia.
Qed.

End TwoRuns.

(** ** The theorems at work on the sample data *)

Lemma fetch_mode_selection_witness :
  last_order_number_of ["7"; "007"; "n/a"; "12"; "3"]
    = Ret (lastSeen ["7"; "007"; "n/a"; "12"; "3"]) /\
  lastSeen ["7"; "007"; "n/a"; "12"; "3"] = 12%Z.
Proof.
  split; [|reflexivity].
  apply (proj2 (proj2 (proj2
           (fetch_mode_selection ["7"; "007"; "n/a"; "12"; "3"])))).
  - reflexivity.
  - intros s Hs Hd.
    repeat (destruct Hs as [<- | Hs];
            [first [discriminate Hd | eexists; reflexivity] |]).
    destruct Hs.
Defined.

Lemma incremental_filtering_witness :
  fetch_mode_of ["3"; "abc"; "5"] = IncrementalFetch /\
  (forall s v,
     In s ["3"; "abc"; "5"] -> PyStr.isdigit s = true ->
     PyStr.int s = Some v -> (v <= 5)%Z) /\
  forall o,
    In o [numbered_order 7] <->
    (exists j,
       j <= 0 /\
       In o (incremental_page
               (small_source
                  [numbered_order 7; unnumbered_order; numbered_order 3]) j)) /\
    exists n, orderNumber o = Val n /\ (5 < n)%Z.
Proof.
  destruct (incremental_filtering ["3"; "abc"; "5"] 5 1
              (small_source
                 [numbered_order 7; unnumbered_order; numbered_order 3])
              {| st_offset := 0; all_orders := [numbered_order 7] |}
              eq_refl eq_refl)
    as (Hmode & _ & _ & Hupper & k & Hoff & _ & Hiff).
  split; [exact Hmode |]. split; [exact Hupper |].
  destruct k as [|k]; [exact Hiff | discriminate Hoff].
Defined.

Lemma flattening_cardinality_witness :
  @flatten_order RecordedDates.recorded
    {| orderNumber := Val 500%Z; createDate := Val "2025-04-01 10:00:00";
       items := Val [] |}
  = Ret [ {| create_date := Some "01-04-2025 11:00:00";
             order_number := Some 500%Z;
             product_name := None; category := None;
             size := None; color := None |} ].
Proof.
  apply (@flattening_cardinality RecordedDates.recorded
           {| orderNumber := Val 500%Z; createDate := Val "2025-04-01 10:00:00";
              items := Val [] |}
           (Some "01-04-2025 11:00:00")).
  - reflexivity.
  - right. reflexivity.
Defined.

Lemma fetch_failure_degrades_witness :
  @sync RecordedDates.recorded 1 (sample_environment failing_source)
    (book_with [tee_row 5])
  = Some (Finished
            {| orders_worksheet := header_flattened :: [tee_row 5];
               log_worksheet :=
                 log_stage (sample_environment failing_source) 0
                   [log_header] |}).
Proof.
  apply (@fetch_failure_degrades RecordedDates.recorded 1
           (sample_environment failing_source) (book_with [tee_row 5])
           RequestException).
  reflexivity.
Defined.

Lemma second_run_idempotence_witness :
  (orders_worksheet after_incremental_run
     = [header_flattened; tee_row 5; tee_row 7] /\
   @sync RecordedDates.recorded 1 two_order_env after_incremental_run =
     Some (Finished
             {| orders_worksheet := orders_worksheet after_incremental_run;
                log_worksheet :=
                  log_stage two_order_env 0
                    (log_worksheet after_incremental_run) |})) /\
  (orders_worksheet after_full_run = [header_flattened; tee_row 5] /\
   @sync RecordedDates.recorded 1 one_order_env after_full_run =
     Some (Finished
             {| orders_worksheet := orders_worksheet after_full_run;
                log_worksheet :=
                  log_stage one_order_env 0 (log_worksheet after_full_run) |})).
Proof.
  split; (split; [reflexivity |]).
  - apply (@second_run_idempotence RecordedDates.recorded 1 1 two_order_env
             two_order_env (book_with [tee_row 5]) after_incremental_run
             ["5"] [tee_order 7]).
    + discriminate.
    + reflexivity.
    + reflexivity.
    + reflexivity.
    + reflexivity.
    + apply le_n.
    + intros o n [<- | []] Hn. injection Hn as <-. reflexivity.
    + intros Hmode. discriminate Hmode.
  - apply (@second_run_idempotence RecordedDates.recorded 1 1 one_order_env
             one_order_env (book_with []) after_full_run [] [tee_order 5]).
    + discriminate.
    + reflexivity.
    + reflexivity.
    + reflexivity.
    + reflexivity.
    + apply le_n.
    + intros o n [<- | []] Hn. injection Hn as <-. reflexivity.
    + intros _ _. split.
      * exists (tee_order 5), 5%Z.
        split; [now left | split; [reflexivity | discriminate]].
      * intros o m [<- | []] Hm _. injection Hm as <-.
        exists (tee_order 5), 5%Z.
        split; [now left | split; [reflexivity | apply Z.le_refl]].
Defined.

(** C4, as the claim states it, fails in four ways.  On a worksheet that
    holds nothing, not even a header, the first run appends the one order of
    the source as the first row, the second run takes that row for the
    header, fetches in full again and appends the order a second time.  On a
    worksheet with its header, a full-fetch first run that fetched only an
    order without a number leaves no number in the column, and the second
    run fetches in full again.  A full-fetch first run lists the orders
    created since [INITIAL_FETCH_DATE_STR], the second run lists all orders
    by number: an order above the written numbers that the first listing does
    not hold is appended by the second run.  And when the first run could not
    read the column, it fetched nothing, and a second run that reads it
    appends the order. *)
Lemma second_run_appends_again :
  (@sync RecordedDates.recorded 1 one_order_env blank_book
     = Some (Finished after_run_on_blank) /\
   orders_worksheet after_run_on_blank = [tee_row 5] /\
   fetch_stage 1 (existing_order_numbers one_order_env after_run_on_blank)
     (requests_get one_order_env)
     = Some [tee_order 5] /\
   exists s2,
     @sync RecordedDates.recorded 1 one_order_env after_run_on_blank
       = Some (Finished s2) /\
     orders_worksheet s2 = [tee_row 5; tee_row 5]) /\
  (@sync RecordedDates.recorded 1 unnumbered_env (book_with [])
     = Some (Finished after_unnumbered_run) /\
   orders_worksheet after_unnumbered_run = [header_flattened; unnumbered_row] /\
   fetch_stage 1 (existing_order_numbers unnumbered_env after_unnumbered_run)
     (requests_get unnumbered_env)
     = Some [unnumbered_tee_order] /\
   exists s2,
     @sync RecordedDates.recorded 1 unnumbered_env after_unnumbered_run
       = Some (Finished s2) /\
     orders_worksheet s2
       = [header_flattened; unnumbered_row; unnumbered_row]) /\
  (@sync RecordedDates.recorded 1 dated_env (book_with [])
     = Some (Finished after_dated_run) /\
   orders_worksheet after_dated_run = [header_flattened; tee_row 5] /\
   fetch_stage 1 (existing_order_numbers dated_env after_dated_run)
     (requests_get dated_env)
     = Some [tee_order 10] /\
   exists s2,
     @sync RecordedDates.recorded 1 dated_env after_dated_run
       = Some (Finished s2) /\
     orders_worksheet s2 = [header_flattened; tee_row 5; tee_row 10]) /\
  (@sync RecordedDates.recorded 1 unread_env (book_with [])
     = Some (Finished after_unread_run) /\
   orders_worksheet after_unread_run = [header_flattened] /\
   requests_get one_order_env = requests_get unread_env /\
   fetch_stage 1 (existing_order_numbers one_order_env after_unread_run)
     (requests_get one_order_env)
     = Some [tee_order 5] /\
   exists s2,
     @sync RecordedDates.recorded 1 one_order_env after_unread_run
       = Some (Finished s2) /\
     orders_worksheet s2 = [header_flattened; tee_row 5]).
Proof.
  repeat split; try reflexivity; eexists; split; reflexivity.
Qed.

(** The example of the specification: an order numbered 500, created at
    10:00:00 UTC, with one item and two options. *)
Example flatten_tee_order :
  @flatten_order RecordedDates.recorded (tee_order 500)
  = Ret [ {| create_date := Some "01-04-2025 11:00:00";
             order_number := Some 500%Z;
             product_name := Some "Tee"; category := None;
             size := Some "M"; color := Some "Red" |} ].
Proof. reflexivity. Qed.

(** C5.  The order numbered 500 with the creation date 9999-12-31 23:30:00
    and an empty item list: the date is parsed, its conversion to the target
    timezone raises [OverflowError], which the normalizer's
    [except ValueError] does not catch.  Flattening gives no row at all, and
    a run that fetched this order ends on the exception, with nothing
    appended and no log row. *)
Theorem flatten_overflowing_date :
  get (items far_future_order) = Some [] /\
  @parse_and_standardize_date RecordedDates.recorded
    (get (createDate far_future_order)) = Raise OverflowError /\
  @flatten_order RecordedDates.recorded far_future_order
    = Raise OverflowError /\
  @sync RecordedDates.recorded 1
    (sample_environment (small_source [far_future_order])) (book_with [])
    = Some (Uncaught OverflowError (book_with [])).
Proof. repeat split. Qed.

(** * Further properties of the script *)

(** ** Option normalizer *)

Lemma lower_upper_char (c : ascii) :
  PyStr.lower_char (upper_char c) = PyStr.lower_char c.
Proof.
  destruct c as [[] [] [] [] [] [] [] []]; reflexivity.
Qed.

Lemma lower_lower_char (c : ascii) :
  PyStr.lower_char (PyStr.lower_char c) = PyStr.lower_char c.
Proof.
  destruct c as [[] [] [] [] [] [] [] []]; reflexivity.
Qed.

Lemma lower_upper (s : string) : PyStr.lower (upper s) = PyStr.lower s.
Proof.
  induction s as [|c s IH]; simpl; [reflexivity|].
  now rewrite lower_upper_char, IH.
Qed.

Lemma lower_lower (s : string) : PyStr.lower (PyStr.lower s) = PyStr.lower s.
Proof.
  induction s as [|c s IH]; simpl; [reflexivity|].
  now rewrite lower_lower_char, IH.
Qed.

Lemma normalize_option_of_lower (a b : string) :
  PyStr.lower a = PyStr.lower b -> normalize_option a = normalize_option b.
Proof.
  intros E. unfold normalize_option. now rewrite E.
Qed.

(** On a name of ASCII characters the option normalizer does not see the
    case of the letters: the name, the name in capitals and the name in small
    letters are filed under the same key. *)
Theorem normalize_option_ignores_case (name : string) :
  isascii name = true ->
  normalize_option (upper name) = normalize_option name /\
  normalize_option (PyStr.lower name) = normalize_option name.
Proof.
  intros _. split; apply normalize_option_of_lower.
  - apply lower_upper.
  - apply lower_lower.
Qed.

Lemma normalize_option_ignores_case_witness :
  normalize_option "SIZE CHART" = normalize_option "Size Chart" /\
  normalize_option "size chart" = normalize_option "Size Chart".
Proof.
  apply (normalize_option_ignores_case "Size Chart"). reflexivity.
Defined.

Lemma replace_space_plain (s t : string) :
  PyStr.replace_space s = t ->
  PyStr.all_chars (fun c => negb (Ascii.eqb c "_"%char)) t = true ->
  s = t.
Proof.
  revert t. induction s as [|c s IH]; intros t; simpl.
  - now intros <-.
  - intros <-. simpl. intros Hplain. apply andb_true_iff in Hplain.
    destruct Hplain as [Hc Hrest].
    destruct (Ascii.eqb c " "%char); [discriminate|].
    f_equal. now apply IH.
Qed.

Lemma any_in_color_self : any_in color_keywords "color" = true.
Proof. reflexivity. Qed.

(** A name is filed under color exactly when it holds one of the colour
    keywords, under size exactly when it holds no colour keyword and one of
    the size keywords, under category exactly when it holds neither and one
    of the category keywords: the fallback for other names never yields one
    of the three keys of the row. *)
Theorem normalize_option_row_keys (name : string) :
  (normalize_option name = "color" <->
     any_in color_keywords (PyStr.lower name) = true) /\
  (normalize_option name = "size" <->
     any_in color_keywords (PyStr.lower name) = false /\
     any_in size_keywords (PyStr.lower name) = true) /\
  (normalize_option name = "category" <->
     any_in color_keywords (PyStr.lower name) = false /\
     any_in size_keywords (PyStr.lower name) = false /\
     any_in category_keywords (PyStr.lower name) = true).
Proof.
  unfold normalize_option. cbv zeta.
  fold color_keywords size_keywords category_keywords.
  set (n := PyStr.lower name).
  destruct (any_in color_keywords n) eqn:Hc.
  { repeat split; try discriminate; intros; try tauto;
      destruct H as [H _]; discriminate. }
  destruct (any_in size_keywords n) eqn:Hs.
  { repeat split; try discriminate; intros; try tauto;
      destruct H as (_ & H & _); discriminate. }
  destruct (any_in category_keywords n) eqn:Hk.
  { repeat split; try discriminate; intros; try tauto;
      destruct H as (_ & H); discriminate. }
  assert (Hfall : forall key,
            PyStr.all_chars (fun c => negb (Ascii.eqb c "_"%char)) key = true ->
            any_in color_keywords key = true \/
            any_in size_keywords key = true \/
            any_in category_keywords key = true ->
            (if any_in ["designer"] n then "designer_category"
             else if any_in ["thickness"] n then "thickness"
             else PyStr.replace_space n) = key -> False).
  { intros key Hplain Hkey E.
    destruct (any_in ["designer"] n).
    - subst key. discriminate.
    - destruct (any_in ["thickness"] n).
      + subst key. destruct Hkey as [H | [H | H]]; discriminate.
      + apply replace_space_plain in E; [|exact Hplain]. subst key.
        destruct Hkey as [H | [H | H]]; congruence. }
  split; [|split]; split; intros H.
  - exfalso. apply (Hfall "color"); [reflexivity | left; reflexivity | exact H].
  - discriminate.
  - exfalso.
    apply (Hfall "size"); [reflexivity | right; left; reflexivity | exact H].
  - destruct H as (_ & H). discriminate.
  - exfalso.
    apply (Hfall "category");
      [reflexivity | right; right; reflexivity | exact H].
  - destruct H as (_ & _ & H). discriminate.
Qed.

Lemma replace_space_no_space (s : string) :
  PyStr.all_chars (fun c => negb (Ascii.eqb c " "%char))
    (PyStr.replace_space s) = true.
Proof.
  induction s as [|c s IH]; simpl; [reflexivity|].
  rewrite IH, andb_true_r.
  destruct (Ascii.eqb c " "%char) eqn:E; [reflexivity|]. now rewrite E.
Qed.

(** The key an option name is filed under never holds a space. *)
Theorem normalize_option_no_space (name : string) :
  PyStr.all_chars (fun c => negb (Ascii.eqb c " "%char))
    (normalize_option name) = true.
Proof.
  unfold normalize_option. cbv zeta.
  repeat match goal with
         | |- context [if ?b then _ else _] => destruct b; [reflexivity|]
         end.
  apply replace_space_no_space.
Qed.

(** ** Date normalizer *)

Section DateNormalizerMore.
Context `{DateLib}.

Lemma try_formats_raise (s : string) (fmts : list string) (e : exn) :
  try_formats s fmts = Raise e ->
  e <> ValueError /\
  exists fmt dt_obj,
    In fmt fmts /\ strptime s fmt = Some dt_obj /\
    astimezone_lagos (as_utc dt_obj) = Raise e.
Proof.
  induction fmts as [|fmt rest IH]; [discriminate|]. simpl.
  destruct (strptime s fmt) as [dt_obj|] eqn:Hparse.
  - destruct (astimezone_lagos (as_utc dt_obj)) as [dt|e'] eqn:Hconv;
      [discriminate|].
    destruct e'.
    + intros Hrest. destruct (IH Hrest) as (Hne & f & d & Hin & Hp & Hc).
      split; [exact Hne|]. exists f, d. auto.
    + intros E. injection E as <-. split; [discriminate|].
      exists fmt, dt_obj. auto.
    + intros E. injection E as <-. split; [discriminate|].
      exists fmt, dt_obj. auto.
    + intros E. injection E as <-. split; [discriminate|].
      exists fmt, dt_obj. auto.
  - intros Hrest. destruct (IH Hrest) as (Hne & f & d & Hin & Hp & Hc).
    split; [exact Hne|]. exists f, d. auto.
Qed.

(** The date normalizer never raises a [ValueError]; an exception that
    leaves it was raised by the conversion to the target zone of a value one
    of the formats had parsed.  The same holds for the [create_date] of a
    row, which is otherwise the formatted date or the raw value. *)
Theorem date_normalizer_exceptions (raw : option string) (e : exn) :
  formatted_create_date raw = Raise e ->
  parse_and_standardize_date raw = Raise e /\
  e <> ValueError /\
  exists s fmt dt_obj,
    raw = Some s /\ In fmt ECWID_DATE_FORMATS /\
    strptime s fmt = Some dt_obj /\
    astimezone_lagos (as_utc dt_obj) = Raise e.
Proof.
  unfold formatted_create_date.
  destruct (parse_and_standardize_date raw) as [p|e'] eqn:Hparse;
    [discriminate|].
  cbn [bind]. intros E. injection E as ->. split; [reflexivity|].
  unfold parse_and_standardize_date in Hparse.
  destruct raw as [[|c s]|]; try discriminate.
  apply try_formats_raise in Hparse.
  destruct Hparse as (Hne & fmt & dt_obj & Hin & Hp & Hc).
  split; [exact Hne|]. exists (String c s), fmt, dt_obj. auto.
Qed.

End DateNormalizerMore.

Lemma date_normalizer_exceptions_witness :
  @parse_and_standardize_date RecordedDates.recorded
    (Some "9999-12-31 23:30:00") = Raise OverflowError.
Proof.
  apply (@date_normalizer_exceptions RecordedDates.recorded
           (Some "9999-12-31 23:30:00") OverflowError).
  reflexivity.
Defined.

(** ** Fetch loops *)

Lemma full_loop_orders (fuel : nat) (get_page : source) (st : fetch_state) :
  full_fetch_loop fuel get_page initial_state = Some (Ret st) ->
  exists k,
    k < fuel /\
    st_offset st = k * page_limit /\
    all_orders st = flat_map (full_page get_page) (seq 0 (S k)) /\
    (forall j, j < k -> full_continues_at get_page (j * page_limit)) /\
    full_stops_at get_page (k * page_limit).
Proof.
  intros Hloop. apply full_fetch_loop_result in Hloop.
  destruct Hloop as (k & Hk & Hrun & Hstop & Hoff & Hall).
  exists k. cbn [initial_state st_offset all_orders app Nat.add] in *.
  split; [assumption|]. split; [assumption|]. split; [|split].
  - rewrite Hall. apply flat_map_offsets.
  - exact (proj1 (full_fetch_loop_running k get_page initial_state) Hrun).
  - exact Hstop.
Qed.

(** A full fetch keeps every order of every page it asked for, in the order
    the source gave them: with [k + 1] requests made, the new orders are the
    pages 0 to [k] laid end to end, the first [k] of them with at least 100
    orders and the last with fewer. *)
Theorem full_fetch_keeps_all (col : list string) (fuel : nat)
  (get_page : source) (new_orders_to_add : list order) :
  fetch_mode_of col = FullFetch ->
  fetch_body fuel (Ret col) get_page = Some (Ret new_orders_to_add) ->
  exists k,
    k < fuel /\
    new_orders_to_add = flat_map (full_page get_page) (seq 0 (S k)) /\
    (forall j, j < k -> page_limit <= List.length (full_page get_page j)) /\
    List.length (full_page get_page k) < page_limit.
Proof.
  intros Hmode. rewrite fetch_body_by_mode, Hmode. unfold fetched.
  destruct (full_fetch_loop fuel get_page initial_state) as [[st|e]|] eqn:Hloop;
    cbn; intros E; try discriminate. injection E as <-.
  destruct (full_loop_orders _ _ _ Hloop) as (k & Hk & _ & Hall & Hcont & Hstop).
  exists k. split; [exact Hk|]. split; [exact Hall|]. split.
  - intros j Hj. destruct (Hcont j Hj) as (orders & Hreq & Hlen).
    unfold full_page. now rewrite Hreq.
  - destruct Hstop as (orders & Hreq & Hlen). unfold full_page. now rewrite Hreq.
Qed.

Lemma full_fetch_keeps_all_witness :
  exists k,
    k < 1 /\
    [tee_order 5; tee_order 7] =
      flat_map (full_page (small_source [tee_order 5; tee_order 7]))
        (seq 0 (S k)) /\
    (forall j, j < k ->
       page_limit <=
       List.length (full_page (small_source [tee_order 5; tee_order 7]) j)) /\
    List.length (full_page (small_source [tee_order 5; tee_order 7]) k)
      < page_limit.
Proof.
  apply (full_fetch_keeps_all ["n/a"] 1
           (small_source [tee_order 5; tee_order 7])
           [tee_order 5; tee_order 7]); reflexivity.
Defined.

Lemma full_fetch_loop_raises (k : nat) (get_page : source) (st : fetch_state)
  (e : exn) :
  (forall j, j < k ->
     full_continues_at get_page (st_offset st + j * page_limit)) ->
  full_request get_page (st_offset st + k * page_limit) = Raise e ->
  forall fuel, k < fuel -> full_fetch_loop fuel get_page st = Some (Raise e).
Proof.
  revert st. induction k as [|k IH]; intros st Hcont Hraise fuel Hfuel;
    (destruct fuel as [|fuel]; [lia|]); rewrite full_fetch_loop_unfold.
  - rewrite Nat.mul_0_l, Nat.add_0_r in Hraise. now rewrite Hraise.
  - destruct (Hcont 0) as (orders & Hreq & Hlen); [lia|].
    rewrite Nat.mul_0_l, Nat.add_0_r in Hreq. rewrite Hreq.
    apply Nat.ltb_ge in Hlen. rewrite Hlen.
    apply IH; cbn [st_offset]; [| |lia].
    + intros j Hj.
      replace (st_offset st + page_limit + j * page_limit)
        with (st_offset st + S j * page_limit) by lia.
      apply Hcont. lia.
    + replace (st_offset st + page_limit + k * page_limit)
        with (st_offset st + S k * page_limit) by lia.
      exact Hraise.
Qed.

Lemma incremental_fetch_loop_raises (k : nat) (get_page : source) (last : Z)
  (st : fetch_state) (e : exn) :
  (forall j, j < k ->
     incremental_continues_at get_page last (st_offset st + j * page_limit)) ->
  incremental_request get_page (st_offset st + k * page_limit) = Raise e ->
  forall fuel, k < fuel ->
    incremental_fetch_loop fuel get_page last st = Some (Raise e).
Proof.
  revert st. induction k as [|k IH]; intros st Hcont Hraise fuel Hfuel;
    (destruct fuel as [|fuel]; [lia|]); rewrite incremental_fetch_loop_unfold.
  - rewrite Nat.mul_0_l, Nat.add_0_r in Hraise. now rewrite Hraise.
  - destruct (Hcont 0) as (orders & Hreq & Hlen & Hret); [lia|].
    rewrite Nat.mul_0_l, Nat.add_0_r in Hreq. rewrite Hreq.
    destruct orders as [|o orders]; [now destruct Hret|].
    apply Nat.ltb_ge in Hlen. rewrite Hlen.
    destruct (retained last (o :: orders)) as [|r rs] eqn:E; [congruence|].
    cbn [orb]. apply IH; cbn [st_offset]; [| |lia].
    + intros j Hj.
      replace (st_offset st + page_limit + j * page_limit)
        with (st_offset st + S j * page_limit) by lia.
      apply Hcont. lia.
    + replace (st_offset st + page_limit + k * page_limit)
        with (st_offset st + S k * page_limit) by lia.
      exact Hraise.
Qed.

(** A request that fails after [k] pages that went well costs the run those
    pages too: in either mode an exception leaves the body of the fetch and
    the fetch stage hands on no order at all.  The exception is the one of
    the failed request, unless the run is incremental and line 137 has
    already raised on an entry [int] does not convert. *)
Theorem failed_fetch_discards_pages (col : list string) (get_page : source)
  (k fuel : nat) (e : exn) :
  k < fuel ->
  match fetch_mode_of col with
  | FullFetch =>
      (forall j, j < k -> full_continues_at get_page (j * page_limit)) /\
      full_request get_page (k * page_limit) = Raise e
  | IncrementalFetch =>
      (forall j, j < k ->
         incremental_continues_at get_page (lastSeen col) (j * page_limit)) /\
      incremental_request get_page (k * page_limit) = Raise e
  end ->
  (fetch_mode_of col = FullFetch \/ all_convert col ->
   fetch_body fuel (Ret col) get_page = Some (Raise e)) /\
  (exists e', fetch_body fuel (Ret col) get_page = Some (Raise e')) /\
  fetch_stage fuel (Ret col) get_page = Some [].
Proof.
  intros Hfuel Hpages.
  assert (Hbody :
    fetch_body fuel (Ret col) get_page = Some (Raise e) \/
    ~ (fetch_mode_of col = FullFetch \/ all_convert col) /\
    fetch_body fuel (Ret col) get_page = Some (Raise ValueError)).
  { destruct (fetch_mode_of col) eqn:Hmode; destruct Hpages as [Hcont Hraise].
    - left. rewrite fetch_body_by_mode, Hmode. unfold fetched.
      now rewrite (full_fetch_loop_raises k get_page initial_state e
                     Hcont Hraise fuel Hfuel).
    - destruct (incremental_body_cases col fuel get_page Hmode)
        as [(_ & _ & ->) | (Hnot & _ & ->)].
      + left. unfold fetched.
        now rewrite (incremental_fetch_loop_raises k get_page (lastSeen col)
                       initial_state e Hcont Hraise fuel Hfuel).
      + right. split; [|reflexivity]. intros [Hfull | Hconv];
          [discriminate | contradiction]. }
  split; [|split].
  - intros Hgood. destruct Hbody as [Hbody | [Hnot _]];
      [exact Hbody | contradiction].
  - destruct Hbody as [Hbody | [_ Hbody]]; eauto.
  - unfold fetch_stage.
    destruct Hbody as [Hbody | [_ Hbody]]; now rewrite Hbody.
Qed.

Lemma failed_fetch_discards_pages_witness :
  fetch_stage 2 (Ret []) breaking_source = Some [].
Proof.
  apply (failed_fetch_discards_pages [] breaking_source 1 2 RequestException).
  - apply le_n.
  - split; [|reflexivity].
    intros j Hj. assert (j = 0) as -> by lia.
    exists (repeat (numbered_order 9) 100). split; [reflexivity|].
    rewrite repeat_length. apply le_n.
Defined.

(** The incremental fetch stops at its first request when that page holds no
    order above the watermark, and hands on nothing, whatever the later pages
    of the source hold. *)
Theorem incremental_fetch_early_exit (col : list string) (get_page : source)
  (orders : list order) (fuel : nat) :
  fetch_mode_of col = IncrementalFetch ->
  incremental_request get_page 0 = Ret orders ->
  retained (lastSeen col) orders = [] ->
  incremental_fetch_loop (S fuel) get_page (lastSeen col) initial_state
    = Some (Ret initial_state) /\
  fetch_stage (S fuel) (Ret col) get_page = Some [].
Proof.
  intros Hmode Hreq Hnone.
  assert (Hloop : incremental_fetch_loop (S fuel) get_page (lastSeen col)
                    initial_state = Some (Ret initial_state)).
  { rewrite incremental_fetch_loop_unfold.
    cbn [initial_state st_offset all_orders]. rewrite Hreq.
    destruct orders as [|o orders]; [reflexivity|].
    now rewrite Hnone, orb_true_r. }
  split; [exact Hloop|].
  unfold fetch_stage.
  destruct (incremental_body_cases col (S fuel) get_page Hmode)
    as [(_ & _ & ->) | (_ & _ & ->)]; [|reflexivity].
  unfold fetched. now rewrite Hloop.
Qed.

Lemma incremental_fetch_early_exit_witness :
  In (numbered_order 500) (incremental_page two_page_source 1) /\
  is_new_order (lastSeen ["150"]) (numbered_order 500) = true /\
  fetch_stage 5 (Ret ["150"]) two_page_source = Some [].
Proof.
  split; [now left|]. split; [reflexivity|].
  apply (incremental_fetch_early_exit ["150"] two_page_source
           (repeat (numbered_order 1) 100) 4).
  - reflexivity.
  - reflexivity.
  - reflexivity.
Defined.

Lemma fetched_above_column (col : list string) (fuel : nat)
  (get_page : source) (new_orders_to_add : list order) (o : order) :
  fetch_mode_of col = IncrementalFetch ->
  fetch_stage fuel (Ret col) get_page = Some new_orders_to_add ->
  In o new_orders_to_add ->
  exists n,
    orderNumber o = Val n /\
    forall s, In s col -> PyStr.isdigit s = true ->
              exists v, PyStr.int s = Some v /\ (v < n)%Z.
Proof.
  intros Hmode Hfetch Hin.
  assert (Hconv : all_convert col).
  { destruct (incremental_body_cases col fuel get_page Hmode)
      as [(Hconv & _) | (_ & _ & Hbody)]; [exact Hconv|].
    unfold fetch_stage in Hfetch. rewrite Hbody in Hfetch.
    cbn [option_map] in Hfetch. injection Hfetch as <-. destruct Hin. }
  destruct (fetch_stage_incremental _ _ _ _ Hmode Hfetch)
    as [-> | (st & Hloop & ->)]; [destruct Hin|].
  apply incremental_loop_orders in Hloop.
  destruct Hloop as (k & _ & _ & Hall). rewrite Hall in Hin.
  apply in_flat_map in Hin. destruct Hin as (j & _ & Hin).
  apply filter_In in Hin. destruct Hin as [_ Hnew].
  apply is_new_order_above in Hnew. destruct Hnew as (n & Hn & _ & Habove).
  exists n. split; [exact Hn|].
  intros s Hs Hd. destruct (Hconv s Hs Hd) as (v & Hv).
  exists v. split; [exact Hv|].
  pose proof (lastSeen_upper col s v Hs Hd Hv). lia.
Qed.

(** An incremental fetch never hands on an order whose number the
    order-number column already holds: the number of every order it hands on
    is above every entry of the column that is a number. *)
Theorem incremental_fetch_skips_known_numbers (col : list string)
  (fuel : nat) (get_page : source) (new_orders_to_add : list order)
  (o : order) :
  fetch_mode_of col = IncrementalFetch ->
  fetch_stage fuel (Ret col) get_page = Some new_orders_to_add ->
  In o new_orders_to_add ->
  exists n,
    orderNumber o = Val n /\
    (forall s, In s col -> PyStr.isdigit s = true ->
               exists v, PyStr.int s = Some v /\ (v < n)%Z) /\
    ~ In (PyStr.str n) col.
Proof.
  intros Hmode Hfetch Hin.
  destruct (fetched_above_column _ _ _ _ _ Hmode Hfetch Hin)
    as (n & Hn & Hbelow).
  exists n. split; [exact Hn|]. split; [exact Hbelow|].
  intros Hknown.
  destruct (Z_lt_le_dec n 0) as [Hneg | Hpos].
  - apply mode_incremental, is_full_fetch_false in Hmode.
    destruct Hmode as (s & Hs & Hd).
    destruct (Hbelow s Hs Hd) as (v & Hv & Hlt).
    pose proof (int_nonneg s v Hv). lia.
  - destruct (Hbelow _ Hknown (isdigit_str n Hpos)) as (v & Hv & Hlt).
    pose proof (int_str_some n v Hpos Hv). lia.
Qed.

Lemma incremental_fetch_skips_known_numbers_witness :
  exists n,
    orderNumber (tee_order 7) = Val n /\
    (forall s, In s ["5"] -> PyStr.isdigit s = true ->
               exists v, PyStr.int s = Some v /\ (v < n)%Z) /\
    ~ In (PyStr.str n) ["5"].
Proof.
  apply (incremental_fetch_skips_known_numbers ["5"] 1
           (small_source [tee_order 5; tee_order 7]) [tee_order 7]).
  - reflexivity.
  - reflexivity.
  - now left.
Defined.

(** Appending entries to the order-number column never brings a run back to
    a full fetch and never lowers the watermark: the watermark lines 137-138
    give for the longer column, when they give one, is at or above the one
    they give for the shorter, and they give both when [int] converts the
    entries of the longer column that pass [isdigit]. *)
Theorem watermark_only_grows (col more : list string) :
  fetch_mode_of col = IncrementalFetch ->
  fetch_mode_of (col ++ more) = IncrementalFetch /\
  (forall a b,
     last_order_number_of col = Ret a ->
     last_order_number_of (col ++ more) = Ret b ->
     (0 <= a <= b)%Z) /\
  (all_convert (col ++ more) ->
   exists a b,
     last_order_number_of col = Ret a /\
     last_order_number_of (col ++ more) = Ret b).
Proof.
  intros Hmode.
  pose proof (proj1 (mode_incremental col) Hmode) as Hf.
  pose proof (is_full_fetch_app col more Hf) as Hf'.
  split; [now apply mode_incremental|]. split.
  - intros a b Ha Hb.
    destruct (last_order_number_ret _ _ Ha) as (_ & -> & _).
    destruct (last_order_number_ret _ _ Hb) as (_ & -> & _).
    split; [apply lastSeen_nonneg | apply lastSeen_app].
  - intros Hconv. exists (lastSeen col), (lastSeen (col ++ more)). split.
    + apply last_order_number_converts; [exact Hf|].
      intros s Hs. apply Hconv, in_or_app. now left.
    + now apply last_order_number_converts.
Qed.

Lemma watermark_only_grows_witness :
  fetch_mode_of (["5"; "x"] ++ ["3"; "12"]) = IncrementalFetch.
Proof.
  apply (watermark_only_grows ["5"; "x"] ["3"; "12"]). reflexivity.
Defined.

(** An entry of the order-number column that passes [isdigit] and that [int]
    does not convert (a superscript digit, a number of more than 4300
    digits) stops every later run at line 137: the [ValueError] leaves the
    body of the fetch before the first request, and the fetch stage hands on
    nothing, whatever the source holds. *)
Theorem unconvertible_entry_blocks_fetch (col : list string) (s : string)
  (fuel : nat) (get_page : source) :
  In s col -> PyStr.isdigit s = true -> PyStr.int s = None ->
  fetch_mode_of col = IncrementalFetch /\
  last_order_number_of col = Raise ValueError /\
  fetch_body fuel (Ret col) get_page = Some (Raise ValueError) /\
  fetch_stage fuel (Ret col) get_page = Some [].
Proof.
  intros Hs Hd Hnone.
  assert (Hmode : fetch_mode_of col = IncrementalFetch).
  { apply mode_incremental, is_full_fetch_false. eauto. }
  split; [exact Hmode|].
  destruct (incremental_body_cases col fuel get_page Hmode)
    as [(Hconv & _) | (_ & Hlast & Hbody)].
  - destruct (Hconv s Hs Hd) as (v & Hv). congruence.
  - split; [exact Hlast|]. split; [exact Hbody|].
    unfold fetch_stage. now rewrite Hbody.
Qed.

Lemma unconvertible_entry_blocks_fetch_witness :
  fetch_mode_of ["41"; "4²"] = IncrementalFetch /\
  last_order_number_of ["41"; "4²"] = Raise ValueError /\
  fetch_body 3 (Ret ["41"; "4²"]) two_page_source = Some (Raise ValueError) /\
  fetch_stage 3 (Ret ["41"; "4²"]) two_page_source = Some [].
Proof.
  apply (unconvertible_entry_blocks_fetch ["41"; "4²"] "4²" 3 two_page_source).
  - right. now left.
  - reflexivity.
  - reflexivity.
Defined.

(** ** Flattening and the run *)

Section RunFacts.
Context `{DateLib}.

Lemma item_rows_numbers (date : option string) (number : option Z)
  (l : list line_item) :
  map order_number (map (item_row date number) l)
  = repeat number (List.length l).
Proof.
  induction l as [|it l IH]; [reflexivity|].
  cbn [map List.length repeat]. f_equal; [|exact IH].
  unfold item_row. apply fold_assign_shared.
Qed.

Lemma flatten_order_numbers (o : order) (rows : list flat_row) :
  flatten_order o = Ret rows ->
  map order_number rows = repeat (get (orderNumber o)) (row_count o).
Proof.
  unfold flatten_order, row_count.
  destruct (formatted_create_date (get (createDate o))) as [date|e];
    [cbn [bind] | discriminate].
  destruct (get (items o)) as [[|item rest]|];
    intros E; injection E as <-; try reflexivity.
  exact (item_rows_numbers date (get (orderNumber o)) (item :: rest)).
Qed.

Lemma row_count_positive (o : order) : 0 < row_count o.
Proof.
  unfold row_count. destruct (get (items o)) as [[|? ?]|]; simpl; lia.
Qed.

(** When the flattening of the fetched orders returns, every order has given
    as many rows as it has items, one row if it has none, in the order of the
    orders and each with the order's number; so there are no rows only when
    there are no orders. *)
Theorem flattened_row_counts (new_orders_to_add : list order)
  (rows : list flat_row) :
  flatten_orders new_orders_to_add = Ret rows ->
  map order_number rows =
    flat_map (fun o => repeat (get (orderNumber o)) (row_count o))
      new_orders_to_add /\
  List.length rows = list_sum (map row_count new_orders_to_add) /\
  (rows = [] <-> new_orders_to_add = []).
Proof.
  revert rows. induction new_orders_to_add as [|o orders IH]; intros rows.
  - intros E. injection E as <-. repeat split; reflexivity.
  - cbn [flatten_orders].
    destruct (flatten_order o) as [ro|e] eqn:Ho; [cbn [bind] | discriminate].
    destruct (flatten_orders orders) as [more|e]; [cbn [bind] | discriminate].
    intros E. injection E as <-.
    destruct (IH more eq_refl) as (Hnum & Hlen & _).
    pose proof (flatten_order_numbers o ro Ho) as Hro.
    assert (Hlro : List.length ro = row_count o).
    { rewrite <- (length_map order_number), Hro. apply repeat_length. }
    split; [|split].
    + cbn [flat_map]. now rewrite map_app, Hro, Hnum.
    + cbn [map]. unfold list_sum in *. cbn [fold_right].
      rewrite length_app. lia.
    + split; [|discriminate]. intros E.
      pose proof (row_count_positive o).
      apply (f_equal (@List.length flat_row)) in E.
      rewrite length_app in E. simpl in E. lia.
Qed.

Lemma flatten_orders_raise (orders : list order) (o : order) (e : exn) :
  In o orders ->
  formatted_create_date (get (createDate o)) = Raise e ->
  exists e', flatten_orders orders = Raise e'.
Proof.
  induction orders as [|x orders IH]; [intros []|].
  intros Hin Hraise. cbn [flatten_orders].
  destruct (flatten_order x) as [rx|ex] eqn:Hx; [|cbn; eauto].
  destruct Hin as [<- | Hin].
  - unfold flatten_order in Hx. rewrite Hraise in Hx. discriminate.
  - destruct (IH Hin Hraise) as (e' & He'). rewrite He'. cbn. eauto.
Qed.

(** When the date normalizer raises on the creation date of one of the
    fetched orders, the run ends on an exception nothing catches: no row is
    appended, no log row is written, the spreadsheet is as it was. *)
Theorem date_exception_aborts_run (fuel : nat) (env : environment)
  (s : spreadsheet) (new_orders_to_add : list order) (o : order) (e : exn) :
  fetch_stage fuel (existing_order_numbers env s) (requests_get env)
    = Some new_orders_to_add ->
  In o new_orders_to_add ->
  formatted_create_date (get (createDate o)) = Raise e ->
  exists e', sync fuel env s = Some (Uncaught e' s).
Proof.
  intros Hfetch Hin Hraise. unfold sync. rewrite Hfetch. cbn [option_map].
  destruct (flatten_orders_raise _ _ _ Hin Hraise) as (e' & He').
  exists e'. unfold after_fetch, prepare_rows. now rewrite He'.
Qed.

(** However a run ends, it has only appended: the orders worksheet it leaves
    is the one it found followed by new rows of six cells each, and the log
    worksheet is the one it found, followed by at most one row. *)
Theorem run_only_appends (fuel : nat) (env : environment) (s : spreadsheet)
  (r : run_end) :
  sync fuel env s = Some r ->
  (exists rows,
     orders_worksheet (spreadsheet_of r) = orders_worksheet s ++ rows /\
     Forall (fun row => List.length row = 6) rows) /\
  (log_worksheet (spreadsheet_of r) = log_worksheet s \/
   exists n,
     log_worksheet (spreadsheet_of r) =
     log_worksheet s ++ [log_entry_flattened env n]).
Proof.
  unfold sync.
  destruct (fetch_stage fuel (existing_order_numbers env s) (requests_get env))
    as [new|]; [cbn [option_map] | discriminate].
  intros E. injection E as <-. unfold after_fetch.
  assert (Hsame :
    (exists rows : list (list cell),
       orders_worksheet s = orders_worksheet s ++ rows /\
       Forall (fun row => List.length row = 6) rows) /\
    (log_worksheet s = log_worksheet s \/
     exists n, log_worksheet s =
               log_worksheet s ++ [log_entry_flattened env n])).
  { split; [exists []; split; [now rewrite app_nil_r | constructor] | now left]. }
  destruct (prepare_rows new) as [df|e]; [|exact Hsame].
  destruct (write_stage env df (orders_worksheet s)) as [ws|e] eqn:Hw;
    [|exact Hsame].
  apply write_stage_appends in Hw. cbn [spreadsheet_of orders_worksheet
                                          log_worksheet].
  split.
  - exists (map row_values df). split; [exact Hw|].
    apply Forall_forall. intros row Hrow. apply in_map_iff in Hrow.
    destruct Hrow as (x & <- & _). reflexivity.
  - unfold log_stage. destruct (append_row_error env); [now left|].
    right. eauto.
Qed.

(** A run that reaches its last line has written one log row, unless the log
    write itself failed, and the number in that row is the number of rows the
    run appended to the orders worksheet. *)
Theorem log_row_counts_appended_rows (fuel : nat) (env : environment)
  (s s1 : spreadsheet) :
  sync fuel env s = Some (Finished s1) ->
  exists rows,
    orders_worksheet s1 = orders_worksheet s ++ rows /\
    log_worksheet s1 =
      match append_row_error env with
      | Some _ => log_worksheet s
      | None =>
          log_worksheet s ++ [log_entry_flattened env (List.length rows)]
      end.
Proof.
  unfold sync.
  destruct (fetch_stage fuel (existing_order_numbers env s) (requests_get env))
    as [new|]; [cbn [option_map] | discriminate].
  intros E. injection E as E. unfold after_fetch in E.
  destruct (prepare_rows new) as [df|e]; [|discriminate].
  destruct (write_stage env df (orders_worksheet s)) as [ws|e] eqn:Hw;
    [|discriminate].
  injection E as <-. apply write_stage_appends in Hw.
  exists (map row_values df). cbn [orders_worksheet log_worksheet].
  split; [exact Hw|]. unfold log_stage. now rewrite length_map.
Qed.

(** When the fetch hands on at least one order and the rows are prepared, a
    failure of the append ends the run on that exception, with nothing
    appended and no log row written; when the fetch hands on nothing, the
    append is not attempted and its failure cannot show. *)
Theorem append_failure_aborts_run (fuel : nat) (env : environment)
  (s : spreadsheet) (new_orders_to_add : list order) (e : exn) :
  fetch_stage fuel (existing_order_numbers env s) (requests_get env)
    = Some new_orders_to_add ->
  append_rows_error env = Some e ->
  (new_orders_to_add = [] ->
   sync fuel env s =
   Some (Finished {| orders_worksheet := orders_worksheet s;
                     log_worksheet := log_stage env 0 (log_worksheet s) |})) /\
  (forall df,
     new_orders_to_add <> [] -> prepare_rows new_orders_to_add = Ret df ->
     sync fuel env s = Some (Uncaught e s)).
Proof.
  intros Hfetch Herr. unfold sync. rewrite Hfetch. cbn [option_map]. split.
  - intros ->. now rewrite after_fetch_nothing.
  - intros df Hne Hdf. unfold after_fetch. rewrite Hdf.
    pose proof (prepare_rows_nonempty _ _ Hdf Hne) as Hrows.
    unfold write_stage. destruct df as [|r df]; [congruence|].
    now rewrite Herr.
Qed.

End RunFacts.

Lemma flattened_row_counts_witness :
  exists rows,
    @flatten_orders RecordedDates.recorded [tee_order 5; numbered_order 7]
      = Ret rows /\
    map order_number rows = [Some 5%Z; Some 7%Z] /\
    List.length rows = 2.
Proof.
  eexists. split; [reflexivity|].
  destruct (@flattened_row_counts RecordedDates.recorded
              [tee_order 5; numbered_order 7] _ eq_refl) as (Hnum & Hlen & _).
  split; [exact Hnum | exact Hlen].
Defined.

Lemma date_exception_aborts_run_witness :
  exists e',
    @sync RecordedDates.recorded 1
      (sample_environment (small_source [far_future_order])) (book_with [])
    = Some (Uncaught e' (book_with [])).
Proof.
  apply (@date_exception_aborts_run RecordedDates.recorded 1
           (sample_environment (small_source [far_future_order]))
           (book_with []) [far_future_order] far_future_order OverflowError).
  - reflexivity.
  - now left.
  - reflexivity.
Defined.

Lemma run_only_appends_witness :
  exists rows,
    orders_worksheet after_incremental_run
      = orders_worksheet (book_with [tee_row 5]) ++ rows /\
    Forall (fun row => List.length row = 6) rows.
Proof.
  apply (proj1 (@run_only_appends RecordedDates.recorded 1 two_order_env
                  (book_with [tee_row 5]) (Finished after_incremental_run)
                  eq_refl)).
Defined.

Lemma log_row_counts_appended_rows_witness :
  exists rows,
    orders_worksheet after_incremental_run
      = orders_worksheet (book_with [tee_row 5]) ++ rows /\
    log_worksheet after_incremental_run
      = [log_header] ++ [log_entry_flattened two_order_env (List.length rows)].
Proof.
  apply (@log_row_counts_appended_rows RecordedDates.recorded 1 two_order_env
           (book_with [tee_row 5]) after_incremental_run).
  reflexivity.
Defined.

Lemma append_failure_aborts_run_witness :
  @sync RecordedDates.recorded 1
    (append_failing_env (small_source [tee_order 5])) (book_with [])
  = Some (Uncaught APIError (book_with [])).
Proof.
  apply (proj2 (@append_failure_aborts_run RecordedDates.recorded 1
                  (append_failing_env (small_source [tee_order 5]))
                  (book_with []) [tee_order 5] APIError eq_refl eq_refl)
           (sort_values
              (clean_dataframe_for_gspread
                 [ {| create_date := Some "01-04-2025 11:00:00";
                      order_number := Some 5%Z;
                      product_name := Some "Tee"; category := None;
                      size := Some "M"; color := Some "Red" |} ]
                 ID_COLUMNS NUMERIC_COLUMNS))).
  - discriminate.
  - reflexivity.
Defined.

(** ** A written order is not fetched again *)

Section WrittenOrders.
Context `{DateLib}.


End WrittenOrders.


(** ** Connection setup *)

Lemma find_worksheet_app (title t : string) (rows : worksheet)
  (wb : workbook) :
  find_worksheet title (wb ++ [(t, rows)]) =
  match find_worksheet title wb with
  | Some ws => Some ws
  | None => if String.eqb t title then Some rows else None
  end.
Proof.
  induction wb as [|[t' ws'] wb IH]; simpl; [reflexivity|].
  destruct (String.eqb t' title); [reflexivity | exact IH].
Qed.

Lemma ensure_worksheet_keeps (title t : string) (header : list cell)
  (wb : workbook) (ws : worksheet) :
  find_worksheet t wb = Some ws ->
  find_worksheet t (ensure_worksheet title header wb) = Some ws.
Proof.
  intros Hfound. unfold ensure_worksheet, add_worksheet.
  destruct (find_worksheet title wb); [exact Hfound|].
  now rewrite find_worksheet_app, Hfound.
Qed.

Lemma ensure_worksheet_found (title : string) (header : list cell)
  (wb : workbook) :
  find_worksheet title (ensure_worksheet title header wb) =
  match find_worksheet title wb with
  | Some ws => Some ws
  | None => Some [header]
  end.
Proof.
  unfold ensure_worksheet, add_worksheet.
  destruct (find_worksheet title wb) eqn:Hfind; [exact Hfind|].
  now rewrite find_worksheet_app, Hfind, String.eqb_refl.
Qed.

Lemma ensure_worksheet_other (title t : string) (header : list cell)
  (wb : workbook) :
  t <> title ->
  find_worksheet t (ensure_worksheet title header wb) = find_worksheet t wb.
Proof.
  intros Hne. unfold ensure_worksheet, add_worksheet.
  destruct (find_worksheet title wb); [reflexivity|].
  rewrite find_worksheet_app.
  destruct (find_worksheet t wb); [reflexivity|].
  destruct (String.eqb title t) eqn:E; [|reflexivity].
  apply String.eqb_eq in E. congruence.
Qed.

Lemma ensure_worksheet_present (title : string) (header : list cell)
  (wb : workbook) (ws : worksheet) :
  find_worksheet title wb = Some ws -> ensure_worksheet title header wb = wb.
Proof.
  intros Hfound. unfold ensure_worksheet. now rewrite Hfound.
Qed.

(** After the connection setup both worksheets are there.  A worksheet the
    spreadsheet already had keeps its rows, whatever they are, so a
    worksheet found without rows stays without a header; a worksheet the
    setup adds holds its header row and nothing else. *)
Theorem connect_worksheets (opened : option workbook) (created : workbook)
  (orders_name log_name : string) :
  let found := match opened with Some wb => wb | None => created end in
  let wb := connect opened created orders_name log_name in
  (forall t ws, find_worksheet t found = Some ws ->
                find_worksheet t wb = Some ws) /\
  (find_worksheet orders_name found = None ->
   find_worksheet orders_name wb = Some [header_flattened]) /\
  (find_worksheet log_name found = None -> log_name <> orders_name ->
   find_worksheet log_name wb = Some [log_header]) /\
  (exists s, handles wb orders_name log_name = Some s).
Proof.
  intros found wb. unfold wb, connect. fold found.
  split; [|split; [|split]].
  - intros t ws Hfound. now apply ensure_worksheet_keeps, ensure_worksheet_keeps.
  - intros Hnone. apply ensure_worksheet_keeps.
    now rewrite ensure_worksheet_found, Hnone.
  - intros Hnone Hne.
    rewrite ensure_worksheet_found, ensure_worksheet_other by exact Hne.
    now rewrite Hnone.
  - unfold handles.
    assert (Ho : exists o,
              find_worksheet orders_name
                (ensure_worksheet orders_name header_flattened found) = Some o).
    { rewrite ensure_worksheet_found.
      destruct (find_worksheet orders_name found); eauto. }
    destruct Ho as (o & Ho).
    rewrite (ensure_worksheet_keeps _ _ _ _ _ Ho).
    rewrite ensure_worksheet_found.
    destruct (find_worksheet log_name _); eauto.
Qed.

Lemma connect_worksheets_witness :
  find_worksheet "Orders Data"
    (connect (Some [("Sheet1", []); ("Update Log", [log_header])]) []
       "Orders Data" "Update Log")
  = Some [header_flattened].
Proof.
  apply (proj1 (proj2 (connect_worksheets
                         (Some [("Sheet1", []); ("Update Log", [log_header])])
                         [] "Orders Data" "Update Log"))).
  reflexivity.
Defined.

(** Connecting a second time changes nothing: what the first setup left is
    found as it is. *)
Theorem connect_twice (opened : option workbook) (created created' : workbook)
  (orders_name log_name : string) :
  connect (Some (connect opened created orders_name log_name)) created'
    orders_name log_name
  = connect opened created orders_name log_name.
Proof.
  unfold connect at 1.
  set (wb := connect opened created orders_name log_name).
  assert (Ho : exists o, find_worksheet orders_name wb = Some o).
  { unfold wb, connect.
    set (found := match opened with Some w => w | None => created end).
    assert (Hfirst : exists o,
              find_worksheet orders_name
                (ensure_worksheet orders_name header_flattened found) = Some o).
    { rewrite ensure_worksheet_found.
      destruct (find_worksheet orders_name found); eauto. }
    destruct Hfirst as (o & Hfirst). exists o.
    now apply ensure_worksheet_keeps. }
  assert (Hl : exists l, find_worksheet log_name wb = Some l).
  { unfold wb, connect. rewrite ensure_worksheet_found.
    destruct (find_worksheet log_name _); eauto. }
  destruct Ho as (o & Ho). destruct Hl as (l & Hl).
  rewrite (ensure_worksheet_present _ _ _ _ Ho).
  now rewrite (ensure_worksheet_present _ _ _ _ Hl).
Qed.

(** On an orders worksheet the setup has just added, and on any orders
    worksheet with at most one row, the order-number column below the header
    is empty and the run is a full fetch. *)
Theorem short_worksheet_full_fetch (env : environment) (s : spreadsheet) :
  List.length (orders_worksheet s) <= 1 ->
  col_values_error env = None ->
  existing_order_numbers env s = Ret [] /\
  fetch_mode_of [] = FullFetch /\
  forall fuel,
    fetch_body fuel (existing_order_numbers env s) (requests_get env) =
    fetched (full_fetch_loop fuel (requests_get env) initial_state).
Proof.
  intros Hlen Herr.
  assert (Hcol : existing_order_numbers env s = Ret []).
  { unfold existing_order_numbers, col_values. rewrite Herr.
    destruct (orders_worksheet s) as [|h [|h' t]]; try reflexivity.
    simpl in Hlen. lia. }
  split; [exact Hcol|]. split; [reflexivity|].
  intros fuel. rewrite Hcol. apply fetch_body_by_mode.
Qed.

Lemma short_worksheet_full_fetch_witness :
  existing_order_numbers one_order_env (book_with []) = Ret [] /\
  existing_order_numbers one_order_env after_run_on_blank = Ret [].
Proof.
  split.
  - apply (short_worksheet_full_fetch one_order_env (book_with []));
      [apply le_n | reflexivity].
  - apply (short_worksheet_full_fetch one_order_env after_run_on_blank);
      [apply le_n | reflexivity].
Defined.
